(** * mcp_server_fetch2: the fetch / extract / cache / paginate pipeline

    A shallow embedding of [src/mcp_server_fetch2/server.py] and of the
    command-line entry point [src/mcp_server_fetch2/__init__.py].

    Conventions.
    - A Python [str] is a [string]; its characters are the code points
      0..255 ([ascii]).  A Python [bytes] is a [list byte].
    - A Python [int] is a [Z].
    - A reading of the cache's clock ([time.monotonic], in seconds) is a
      [Z]; the operations that consult the cache take the reading as an
      argument.
    - Module-level globals ([_custom_user_agent], [_ignore_robots_txt],
      [_proxy_url], [_pdf_cache]) are fields of an explicit [state],
      threaded through a state-and-exception monad together with a log of
      the calls made to the outside world.
    - Third-party collaborators (HTTP client, robots.txt rule evaluator,
      HTML simplifier, Markdown converter, document converter, URL
      parser) are the fields of a record [Collaborators]. *)

From Stdlib Require Import ZArith NArith List Bool Lia.
From Stdlib Require Import Strings.Ascii Strings.String Strings.Byte.
From Stdlib Require Import DecimalString.
Import ListNotations.

Local Open Scope string_scope.
Local Open Scope Z_scope.

(* ================================================================== *)
(** ** Python string primitives used by the source *)
(* ================================================================== *)

Module PyStr.

(** [len(s)] *)
Definition len (s : string) : Z := Z.of_nat (String.length s).

(** The one-character string ["\n"]. *)
Definition nl : string := String (ascii_of_nat 10) EmptyString.

Fixpoint take (n : nat) (s : string) : string :=
  match n, s with
  | S n', String c s' => String c (take n' s')
  | _, _ => EmptyString
  end.

Fixpoint drop (n : nat) (s : string) : string :=
  match n, s with
  | S n', String _ s' => drop n' s'
  | _, _ => s
  end.

(** How Python normalises one bound of a slice of a sequence of length
    [n]: a negative bound counts from the end, and both are clamped to
    [0..n]. *)
Definition clamp_index (n i : Z) : Z :=
  if i <? 0 then Z.max (i + n) 0 else Z.min i n.

(** [s[lo:hi]] *)
Definition slice (s : string) (lo hi : Z) : string :=
  let n := len s in
  let lo' := clamp_index n lo in
  let hi' := clamp_index n hi in
  take (Z.to_nat (hi' - lo')) (drop (Z.to_nat lo') s).

(** [c * n] for a one-character string [c]. *)
Fixpoint replicate (n : nat) (c : ascii) : string :=
  match n with
  | O => EmptyString
  | S n' => String c (replicate n' c)
  end.

(** [s.startswith(p)] *)
Definition startswith (s p : string) : bool := String.prefix p s.

(** [s.endswith(p)] *)
Definition endswith (s p : string) : bool :=
  (String.length p <=? String.length s)%nat
  && String.eqb (drop (String.length s - String.length p) s) p.

(** [sub in s] *)
Fixpoint contains (sub s : string) : bool :=
  String.prefix sub s
  || match s with
     | EmptyString => false
     | String _ s' => contains sub s'
     end.

(** [str.lower] on the code points 0..255: [A-Z] and the Latin-1
    capitals U+00C0..U+00DE (U+00D7, the multiplication sign, apart). *)
Definition lower_char (c : ascii) : ascii :=
  let n := nat_of_ascii c in
  if ((65 <=? n) && (n <=? 90))%nat then ascii_of_nat (n + 32)
  else if ((192 <=? n) && (n <=? 222) && negb (n =? 215))%nat
       then ascii_of_nat (n + 32)
  else c.

Fixpoint lower (s : string) : string :=
  match s with
  | EmptyString => EmptyString
  | String c s' => String (lower_char c) (lower s')
  end.

(** The characters [str.isspace] accepts among the code points 0..255. *)
Definition is_space (c : ascii) : bool :=
  let n := nat_of_ascii c in
  (((9 <=? n) && (n <=? 13)) || ((28 <=? n) && (n <=? 32))
   || (n =? 133) || (n =? 160))%nat.

Fixpoint lstrip (s : string) : string :=
  match s with
  | EmptyString => EmptyString
  | String c s' => if is_space c then lstrip s' else s
  end.

Fixpoint rev_onto (s acc : string) : string :=
  match s with
  | EmptyString => acc
  | String c s' => rev_onto s' (String c acc)
  end.

Definition rev (s : string) : string := rev_onto s EmptyString.

(** [s.strip()] *)
Definition strip (s : string) : string := rev (lstrip (rev (lstrip s))).

(** The line boundaries of [str.splitlines] among the code points
    0..255: LF, VT, FF, CR, FS, GS, RS and NEL. *)
Definition is_linebreak (c : ascii) : bool :=
  let n := nat_of_ascii c in
  (((10 <=? n) && (n <=? 13)) || ((28 <=? n) && (n <=? 30))
   || (n =? 133))%nat.

(** [splitlines_from cur s] splits [s], [cur] being the characters of
    the current line read so far, last one first.  CR LF is one
    boundary; a final line without a terminator is kept unless it is
    empty. *)
Fixpoint splitlines_from (cur : string) (s : string) : list string :=
  match s with
  | EmptyString =>
      match cur with
      | EmptyString => []
      | _ => [rev cur]
      end
  | String c s' =>
      if is_linebreak c then
        match s' with
        | String c' s'' =>
            if ((nat_of_ascii c =? 13) && (nat_of_ascii c' =? 10))%nat
            then rev cur :: splitlines_from EmptyString s''
            else rev cur :: splitlines_from EmptyString s'
        | EmptyString => rev cur :: splitlines_from EmptyString s'
        end
      else splitlines_from (String c cur) s'
  end.

(** [s.splitlines()] *)
Definition splitlines (s : string) : list string :=
  splitlines_from EmptyString s.

(** [sep.join(parts)] *)
Definition join (sep : string) (parts : list string) : string :=
  String.concat sep parts.

(** [str(n)], and [{n}] in an f-string, for an [int]. *)
Definition of_int (n : Z) : string := NilZero.string_of_int (Z.to_int n).

(** [b.startswith(p)] on [bytes]. *)
Fixpoint bytes_startswith (b p : list byte) : bool :=
  match p, b with
  | [], _ => true
  | x :: p', y :: b' => Byte.eqb x y && bytes_startswith b' p'
  | _ :: _, [] => false
  end.

End PyStr.

(* ================================================================== *)
(** ** The PDF text cache *)
(* ================================================================== *)

Module TTLCache.

(** Modelled from the spec: the class [TTLCache] of the third-party
    package [cachetools] (imported at server.py:12) is not among the
    sources.  An entry is the spec's PdfCacheEntry: the source URL, the
    extracted text and the instant at which the entry expires. *)
Record entry : Type := mk_entry {
  key : string;
  value : string;
  expires : Z
}.

(** Modelled from the spec: the store of [cachetools.TTLCache], which is
    not among the sources, as the spec's bounded map with
    insertion-ordered eviction: the entries in insertion order, oldest
    first. *)
Definition t : Type := list entry.

(** [maxsize=20] at server.py:115. *)
Definition maxsize : nat := 20.

(** [ttl=600] at server.py:115: ten minutes, in seconds. *)
Definition ttl : Z := 600.

(** [TTLCache(maxsize=20, ttl=600)]: the cache the module starts with. *)
Definition empty : t := [].

(** Modelled from the spec: expiry test of [cachetools.TTLCache] (not
    among the sources); an entry is readable strictly before its expiry
    instant. *)
Definition live (now : Z) (e : entry) : bool := now <? expires e.

(** Modelled from the spec: key lookup of [cachetools.TTLCache] (not
    among the sources). *)
Definition lookup (c : t) (k : string) : option entry :=
  find (fun e => String.eqb (key e) k) c.

(** Modelled from the spec: [k in cache] of [cachetools.TTLCache] (not
    among the sources), with the spec's lazy expiry check on read. *)
Definition contains (c : t) (k : string) (now : Z) : bool :=
  match lookup c k with
  | Some e => live now e
  | None => false
  end.

(** Modelled from the spec: [cache[k]] of [cachetools.TTLCache] (not
    among the sources); [None] stands for the [KeyError] of a missing
    or expired key.  A read leaves the store as it is: the spec has
    insertion order, not access order, govern eviction. *)
Definition getitem (c : t) (k : string) (now : Z) : option string :=
  match lookup c k with
  | Some e => if live now e then Some (value e) else None
  | None => None
  end.

(** Modelled from the spec: eviction by age of [cachetools.TTLCache]
    (not among the sources). *)
Definition expire (c : t) (now : Z) : t := filter (live now) c.

(** Modelled from the spec: removal of a key of [cachetools.TTLCache]
    (not among the sources). *)
Definition remove (c : t) (k : string) : t :=
  filter (fun e => negb (String.eqb (key e) k)) c.

(** Modelled from the spec: eviction by capacity of
    [cachetools.TTLCache] (not among the sources): the least recently
    inserted entry goes. *)
Definition evict_oldest (c : t) : t := tl c.

(** Modelled from the spec: [cache[k] = v] of [cachetools.TTLCache] (not
    among the sources): entries past their age go, an entry already
    stored under [k] is replaced, the oldest entry goes when the store
    is full, and the new entry is the newest. *)
Definition setitem (c : t) (k v : string) (now : Z) : t :=
  let c1 := remove (expire c now) k in
  let c2 := if (maxsize <=? List.length c1)%nat then evict_oldest c1 else c1 in
  (c2 ++ [mk_entry k v (now + ttl)])%list.

(** The URLs stored, oldest first. *)
Definition keys (c : t) : list string := map key c.

End TTLCache.

(* ================================================================== *)
(** ** The outside world *)
(* ================================================================== *)

(** The arguments of one [client.get] call together with those of the
    [AsyncClient] it is made on. *)
Record request : Type := mk_request {
  req_url : string;
  req_user_agent : string;
  req_proxies : option string;
  req_verify : bool;
  req_timeout : option Z
}.

(** What the source reads of an [httpx.Response]. *)
Record response : Type := mk_response {
  status_code : Z;
  text : string;
  content : list byte;
  content_type_header : option string
}.

(** [client.get] returns a response or raises [httpx.HTTPError]; the
    string is the [repr] of the exception. *)
Inductive http_outcome : Type :=
| HTTPError (repr : string)
| Response (r : response).

(** The six components of [urllib.parse.urlparse]. *)
Record url_parts : Type := mk_url_parts {
  scheme : string;
  netloc : string;
  path : string;
  params : string;
  query : string;
  fragment : string
}.

(** The third-party code the server calls. *)
Record Collaborators : Type := mk_collaborators {
  (** [httpx.AsyncClient(...).get(...)] with [follow_redirects=True] *)
  http_get : request -> http_outcome;
  (** [urllib.parse.urlparse] and [urlunparse] *)
  urlparse : string -> url_parts;
  urlunparse : url_parts -> string;
  (** [Protego.parse(robots).can_fetch(url, user_agent)] *)
  can_fetch : string -> string -> string -> bool;
  (** [readabilipy.simple_json.simple_json_from_html_string(html,
      use_readability=True)["content"]] *)
  simple_json_content : string -> option string;
  (** [markdownify.markdownify(html, heading_style=ATX)] *)
  markdownify : string -> string;
  (** [MarkItDown().convert(path).text_content] on a temporary file
      holding the bytes; [None] when the converter raises. *)
  markitdown_convert : list byte -> option string
}.

(** The calls made to the outside world, in the order they are made. *)
Inductive event : Type :=
| RobotsGet (r : request)
| PageGet (r : request)
| RobotsParse (robots_txt : string)
| PdfConvert (data : list byte).

(** The exceptions the server raises or lets through. *)
Inductive exn : Type :=
| ValueError (msg : string)
| KeyError (k : string)
| ConversionFailed.

(** The module-level globals of server.py, and the log of outside calls. *)
Record state : Type := mk_state {
  _custom_user_agent : option string;
  _ignore_robots_txt : bool;
  _proxy_url : option string;
  _pdf_cache : TTLCache.t;
  log : list event
}.

(** The globals as server.py:115 and server.py:166-168 initialise them. *)
Definition initial_state : state :=
  mk_state None true None TTLCache.empty [].

(* ================================================================== *)
(** ** State and exceptions *)
(* ================================================================== *)

Inductive outcome (A : Type) : Type :=
| Return (a : A)
| Raise (e : exn).

Arguments Return {A} a.
Arguments Raise {A} e.

Definition M (A : Type) : Type := state -> outcome A * state.

Definition ret {A : Type} (a : A) : M A := fun s => (Return a, s).

Definition raise {A : Type} (e : exn) : M A := fun s => (Raise e, s).

Definition bind {A B : Type} (m : M A) (k : A -> M B) : M B :=
  fun s =>
    match m s with
    | (Return a, s') => k a s'
    | (Raise e, s') => (Raise e, s')
    end.

Notation "x <- m ;; k" := (bind m (fun x => k))
  (at level 61, m at next level, right associativity).
Notation "m ;;; k" := (bind m (fun _ => k))
  (at level 61, right associativity).

Definition get_state : M state := fun s => (Return s, s).

Definition emit (e : event) : M unit :=
  fun s =>
    (Return tt,
     mk_state (_custom_user_agent s) (_ignore_robots_txt s) (_proxy_url s)
              (_pdf_cache s) (log s ++ [e])%list).

Definition set_pdf_cache (c : TTLCache.t) : M unit :=
  fun s =>
    (Return tt,
     mk_state (_custom_user_agent s) (_ignore_robots_txt s) (_proxy_url s)
              c (log s)).

(* ================================================================== *)
(** ** server.py *)
(* ================================================================== *)

Import PyStr.

Definition DEFAULT_USER_AGENT_AUTONOMOUS : string :=
  "ModelContextProtocol/1.0 (Autonomous; +https://github.com/modelcontextprotocol/servers)".

Definition DEFAULT_USER_AGENT_MANUAL : string :=
  "ModelContextProtocol/1.0 (User-Specified; +https://github.com/modelcontextprotocol/servers)".

(** The first five bytes of a PDF file, [b"%PDF-"]. *)
Definition pdf_magic : list byte := [x25; x50; x44; x46; x2d].

(** The cap of server.py:110, [text[:10_000_000]]. *)
Definition PDF_TEXT_CAP : Z := 10000000.

Definition html_failure_marker : string :=
  "<error>Page failed to be simplified from HTML</error>".

Definition no_more_content_marker : string :=
  "<error>No more content available.</error>".

(** The notice of server.py:226. *)
Definition continuation_notice (next_start : Z) : string :=
  nl ++ nl
  ++ "<error>Content truncated. Call the fetch tool with a start_index of "
  ++ of_int next_start ++ " to get more content.</error>".

(** The message of server.py:75. *)
Definition robots_connection_message (robot_txt_url : string) : string :=
  "Failed to fetch robots.txt " ++ robot_txt_url
  ++ " due to a connection issue".

(** The message of server.py:77. *)
Definition robots_forbidden_message (robot_txt_url : string) (status : Z)
  : string :=
  "When fetching robots.txt (" ++ robot_txt_url ++ "), received status "
  ++ of_int status
  ++ " so assuming that autonomous fetching is not allowed, the user can try manually fetching by using the fetch prompt".

(** The message of server.py:86-91. *)
Definition robots_disallow_message
  (robot_txt_url user_agent url robot_txt : string) : string :=
  "The sites robots.txt (" ++ robot_txt_url
  ++ "), specifies that autonomous fetching of this page is not allowed, "
  ++ "<useragent>" ++ user_agent ++ "</useragent>" ++ nl
  ++ "<url>" ++ url ++ "</url>"
  ++ "<robots>" ++ nl ++ robot_txt ++ nl ++ "</robots>" ++ nl
  ++ "The assistant must let the user know that it failed to view the page. The assistant may provide further guidance based on the above information."
  ++ nl
  ++ "The assistant can tell the user that they can try manually fetching the page by using the fetch prompt within their UI.".

(** The prefix of server.py:159. *)
Definition raw_content_prefix (content_type : string) : string :=
  "Content type " ++ content_type
  ++ " cannot be simplified to markdown, but here is the raw content:" ++ nl.

Definition MAX_LENGTH_MESSAGE : string :=
  "max_length must be between 1 and 999999".

Definition START_INDEX_MESSAGE : string := "start_index must be >= 0".

Definition URL_REQUIRED_MESSAGE : string := "URL is required".

Section Server.

Variable E : Collaborators.

(** server.py:19-37 *)
Definition extract_content_from_html (html : string) : string :=
  match simple_json_content E html with
  | None => html_failure_marker
  | Some c =>
      if String.eqb c "" then html_failure_marker else markdownify E c
  end.

(** server.py:40-55 *)
Definition get_robots_txt_url (url : string) : string :=
  let parsed := urlparse E url in
  urlunparse E
    (mk_url_parts (scheme parsed) (netloc parsed) "/robots.txt" "" "" "").

(** server.py:81-83: the robots.txt body without its comment lines. *)
Definition processed_robot_txt (robot_txt : string) : string :=
  join nl
    (filter (fun line => negb (startswith (strip line) "#"))
            (splitlines robot_txt)).

(** server.py:58-91.  The client is built with [proxies=proxy_url] alone
    and the request carries no timeout. *)
Definition check_may_autonomously_fetch_url
  (url user_agent : string) (proxy_url : option string) : M unit :=
  let robot_txt_url := get_robots_txt_url url in
  let req := mk_request robot_txt_url user_agent proxy_url true None in
  emit (RobotsGet req) ;;;
  match http_get E req with
  | HTTPError _ => raise (ValueError (robots_connection_message robot_txt_url))
  | Response r =>
      if (status_code r =? 401) || (status_code r =? 403) then
        raise (ValueError
                 (robots_forbidden_message robot_txt_url (status_code r)))
      else if (400 <=? status_code r) && (status_code r <? 500) then
        ret tt
      else
        let robot_txt := text r in
        emit (RobotsParse (processed_robot_txt robot_txt)) ;;;
        if negb (can_fetch E (processed_robot_txt robot_txt) url user_agent)
        then raise (ValueError
                      (robots_disallow_message
                         robot_txt_url user_agent url robot_txt))
        else ret tt
  end.

(** server.py:94-111.  [t_read] is the reading of the cache's clock when
    the cache is consulted (lines 96-97), [t_write] its reading when the
    converted text is stored (line 110). *)
Definition extract_content_from_pdf
  (t_read t_write : Z) (data : list byte) (url : string) : M string :=
  s <- get_state ;;
  if TTLCache.contains (_pdf_cache s) url t_read then
    match TTLCache.getitem (_pdf_cache s) url t_read with
    | Some cached => ret cached
    | None => raise (KeyError url)
    end
  else
    emit (PdfConvert data) ;;;
    match markitdown_convert E data with
    | None => raise ConversionFailed
    | Some text =>
        s' <- get_state ;;
        set_pdf_cache
          (TTLCache.setitem (_pdf_cache s') url
                            (slice text 0 PDF_TEXT_CAP) t_write) ;;;
        ret text
    end.

(** server.py:142: [response.headers.get("content-type", "")] *)
Definition response_content_type (r : response) : string :=
  match content_type_header r with
  | Some v => v
  | None => ""
  end.

(** server.py:144 *)
Definition is_pdf (content_type url : string) (raw_bytes : list byte) : bool :=
  contains "application/pdf" (lower content_type)
  || endswith (lower url) ".pdf"
  || bytes_startswith raw_bytes pdf_magic.

(** server.py:150-152 *)
Definition is_page_html (page_raw content_type : string) : bool :=
  contains "<html" (slice page_raw 0 100)
  || contains "text/html" content_type
  || String.eqb content_type "".

(** server.py:118-160 *)
Definition fetch_url
  (t_read t_write : Z) (url user_agent : string) (force_raw : bool)
  (proxy_url : option string) (verify_ssl : bool) : M (string * string) :=
  let req := mk_request url user_agent proxy_url verify_ssl (Some 30) in
  emit (PageGet req) ;;;
  match http_get E req with
  | HTTPError e =>
      raise (ValueError ("Failed to fetch " ++ url ++ ": " ++ e))
  | Response r =>
      if status_code r >=? 400 then
        raise (ValueError ("Failed to fetch " ++ url ++ " - status code "
                           ++ of_int (status_code r)))
      else
        let page_raw := text r in
        let raw_bytes := content r in
        let content_type := response_content_type r in
        if is_pdf content_type url raw_bytes then
          text <- extract_content_from_pdf t_read t_write raw_bytes url ;;
          ret (text, "")
        else if is_page_html page_raw content_type && negb force_raw then
          ret (extract_content_from_html page_raw, "")
        else
          ret (page_raw, raw_content_prefix content_type)
  end.

(** server.py:212-226: the window of [content] the call returns, or the
    marker. *)
Definition paginate (content : string) (start_index max_length : Z) : string :=
  let original_length := len content in
  if start_index >=? original_length then no_more_content_marker
  else
    let truncated_content :=
      slice content start_index (start_index + max_length) in
    if String.eqb truncated_content "" then no_more_content_marker
    else
      let actual_content_length := len truncated_content in
      let remaining_content :=
        original_length - (start_index + actual_content_length) in
      if (actual_content_length =? max_length) && (remaining_content >? 0)
      then truncated_content
           ++ continuation_notice (start_index + actual_content_length)
      else truncated_content.

(** server.py:228 *)
Definition format_result (prefix url content : string) : string :=
  prefix ++ "Contents of " ++ url ++ ":" ++ nl ++ content.

(** server.py:203: [_custom_user_agent or DEFAULT_USER_AGENT_AUTONOMOUS]. *)
Definition user_agent_autonomous (s : state) : string :=
  match _custom_user_agent s with
  | Some ua => if String.eqb ua "" then DEFAULT_USER_AGENT_AUTONOMOUS else ua
  | None => DEFAULT_USER_AGENT_AUTONOMOUS
  end.

(** server.py:173-228.  [verify_ssl] is left at its default, [False]. *)
Definition fetch
  (t_read t_write : Z) (url : string) (max_length start_index : Z)
  (raw : bool) : M string :=
  if (max_length <=? 0) || (max_length >=? 1000000) then
    raise (ValueError MAX_LENGTH_MESSAGE)
  else if start_index <? 0 then
    raise (ValueError START_INDEX_MESSAGE)
  else if String.eqb url "" then
    raise (ValueError URL_REQUIRED_MESSAGE)
  else
    s <- get_state ;;
    let ua := user_agent_autonomous s in
    (if negb (_ignore_robots_txt s)
     then check_may_autonomously_fetch_url url ua (_proxy_url s)
     else ret tt) ;;;
    cp <- fetch_url t_read t_write url ua raw (_proxy_url s) false ;;
    ret (format_result (snd cp) url (paginate (fst cp) start_index max_length)).

End Server.

(** server.py:230-239 *)
Definition configure_server
  (custom_user_agent : option string) (ignore_robots_txt : bool)
  (proxy_url : option string) : M unit :=
  fun s =>
    (Return tt,
     mk_state custom_user_agent ignore_robots_txt proxy_url
              (_pdf_cache s) (log s)).

(** The default of the parameter [ignore_robots_txt] of [serve]
    (server.py:243) and of [configure_server] (server.py:232). *)
Definition ignore_robots_txt_default : bool := true.

(** server.py:241-268: the configuration the server runs with.  The
    transport and the port select how the hosting framework listens and
    leave the globals alone. *)
Definition serve
  (custom_user_agent : option string) (ignore_robots_txt : bool)
  (proxy_url : option string) (port : option Z) (transport : string)
  : M unit :=
  configure_server custom_user_agent ignore_robots_txt proxy_url.

(* ================================================================== *)
(** ** __init__.py *)
(* ================================================================== *)

(** The [Namespace] that [parser.parse_args()] returns. *)
Record Namespace : Type := mk_namespace {
  args_user_agent : option string;
  args_ignore_robots_txt : bool;
  args_proxy_url : option string;
  args_port : option Z;
  args_transport : string
}.

(** The namespace before any argument is read: [store_true] starts at
    [False], [--transport] at its [default="http"], the others at
    [None]. *)
Definition namespace_defaults : Namespace :=
  mk_namespace None false None None "http".

Definition parse_port (v : string) : option Z :=
  option_map Z.of_int (NilZero.int_of_string v).

(** [parser.parse_args()] on the arguments after the program name, for
    command lines that spell each option in full and give its value as
    the next argument; [None] is argparse's exit with a usage error. *)
Fixpoint parse_args_from (ns : Namespace) (argv : list string)
  : option Namespace :=
  match argv with
  | [] => Some ns
  | opt :: rest =>
      if String.eqb opt "--ignore-robots-txt" then
        parse_args_from
          (mk_namespace (args_user_agent ns) true (args_proxy_url ns)
                        (args_port ns) (args_transport ns)) rest
      else
        match rest with
        | [] => None
        | v :: rest' =>
            if String.eqb opt "--user-agent" then
              parse_args_from
                (mk_namespace (Some v) (args_ignore_robots_txt ns)
                              (args_proxy_url ns) (args_port ns)
                              (args_transport ns)) rest'
            else if String.eqb opt "--proxy-url" then
              parse_args_from
                (mk_namespace (args_user_agent ns) (args_ignore_robots_txt ns)
                              (Some v) (args_port ns) (args_transport ns))
                rest'
            else if String.eqb opt "--port" then
              match parse_port v with
              | Some p =>
                  parse_args_from
                    (mk_namespace (args_user_agent ns)
                                  (args_ignore_robots_txt ns)
                                  (args_proxy_url ns) (Some p)
                                  (args_transport ns)) rest'
              | None => None
              end
            else if String.eqb opt "--transport" then
              if String.eqb v "stdio" || String.eqb v "http" then
                parse_args_from
                  (mk_namespace (args_user_agent ns)
                                (args_ignore_robots_txt ns)
                                (args_proxy_url ns) (args_port ns) v) rest'
              else None
            else None
        end
  end.

Definition parse_args (argv : list string) : option Namespace :=
  parse_args_from namespace_defaults argv.

(** __init__.py:27-28: the state the server runs in when started from
    the command line with the arguments [argv]; [None] when argparse
    rejects them. *)
Definition main (argv : list string) : option state :=
  match parse_args argv with
  | None => None
  | Some args =>
      Some (snd (serve (args_user_agent args) (args_ignore_robots_txt args)
                       (args_proxy_url args) (args_port args)
                       (args_transport args) initial_state))
  end.

(* ================================================================== *)
(** ** A small world to run the server in *)
(* ================================================================== *)

Module Demo.

Definition robots_body : string :=
  "# rules" ++ nl ++ "User-agent: *" ++ nl ++ "Disallow: /private".

(** A PDF of six bytes, [b"%PDF-1"]. *)
Definition pdf_bytes : list byte := [x25; x50; x44; x46; x2d; x31].

Definition page_url : string := "https://example.com/page".
Definition private_url : string := "https://example.com/private".
Definition pdf_url : string := "https://example.com/doc.pdf".
Definition robots_url : string := "https://example.com/robots.txt".

(** One site: a robots.txt, a plain-text page of ten characters, a
    private page and a PDF; any other URL cannot be reached. *)
Definition site (r : request) : http_outcome :=
  if String.eqb (req_url r) robots_url then
    Response (mk_response 200 robots_body [] (Some "text/plain"))
  else if String.eqb (req_url r) page_url then
    Response (mk_response 200 "abcdefghij" [] (Some "text/plain"))
  else if String.eqb (req_url r) private_url then
    Response (mk_response 200 "secret" [] (Some "text/plain"))
  else if String.eqb (req_url r) pdf_url then
    Response (mk_response 200 "" pdf_bytes (Some "application/pdf"))
  else HTTPError "ConnectError('unreachable')".

(** Every URL of the site has scheme [https] and host [example.com]. *)
Definition parse (url : string) : url_parts :=
  mk_url_parts "https" "example.com" (drop 19 url) "" "" "".

Definition unparse (p : url_parts) : string :=
  scheme p ++ "://" ++ netloc p ++ path p.

(** The site's rules: nobody may fetch [/private]. *)
Definition rules (robots url user_agent : string) : bool :=
  negb (contains "Disallow: /private" robots && contains "/private" url).

(** A converter whose text for every document is [pdf_text]. *)
Definition world (pdf_text : string) : Collaborators :=
  mk_collaborators site parse unparse rules
    (fun html => Some html) (fun html => html)
    (fun _ => Some pdf_text).

(** One character more than the cache keeps of a text. *)
Definition long_length : nat := N.to_nat 10000001.

Definition long_text : string := replicate long_length "a"%char.

(** The [n] URLs [u/0 .. u/(n-1)], oldest first, each stored at instant
    [0] with the text ["t"]. *)
Fixpoint numbered (n : nat) : TTLCache.t :=
  match n with
  | O => []
  | S n' =>
      (numbered n'
       ++ [TTLCache.mk_entry ("u/" ++ of_int (Z.of_nat n')) "t" TTLCache.ttl])%list
  end.

(** A state whose cache is full: twenty live entries. *)
Definition full_state : state :=
  mk_state None true None (numbered 20) [].

End Demo.

(* ================================================================== *)
(** ** Worlds that answer every request alike *)
(* ================================================================== *)

Module Probe.

(** The world in which every request has the outcome [o], the HTML
    simplifier finds the content [html] in every page and the document
    converter makes [pdf] of every document. *)
Definition answering
  (o : http_outcome) (html : option string) (pdf : option string)
  : Collaborators :=
  mk_collaborators (fun _ => o) Demo.parse Demo.unparse Demo.rules
    (fun _ => html) (fun h => "md:" ++ h) (fun _ => pdf).

End Probe.

(* ================================================================== *)
(** ** Notions the facts below are stated with *)
(* ================================================================== *)

(** The state [s] after the outside calls [evs]. *)
Definition logged (s : state) (evs : list event) : state :=
  mk_state (_custom_user_agent s) (_ignore_robots_txt s) (_proxy_url s)
           (_pdf_cache s) (log s ++ evs)%list.

(** The cache after an operation is the cache before it, or that cache
    after one store of a text cut to [PDF_TEXT_CAP] characters. *)
Inductive cache_step (c : TTLCache.t) : TTLCache.t -> Prop :=
| cache_same : cache_step c c
| cache_stored (k text : string) (now : Z) :
    cache_step c (TTLCache.setitem c k (slice text 0 PDF_TEXT_CAP) now).

(** What holds of the cache at all times: it is within capacity and
    every text it stores is within the cap. *)
Definition cache_ok (c : TTLCache.t) : Prop :=
  (List.length c <= TTLCache.maxsize)%nat
  /\ Forall (fun e => len (TTLCache.value e) <= PDF_TEXT_CAP) c.

(** The states the server can be in: the module's initial state, and
    what [configure_server] and [fetch] make of a state it can be in. *)
Inductive reachable (E : Collaborators) : state -> Prop :=
| reach_initial : reachable E initial_state
| reach_configure (s : state) (ua : option string) (ignore : bool)
    (proxy : option string) :
    reachable E s -> reachable E (snd (configure_server ua ignore proxy s))
| reach_fetch (s : state) (t_read t_write : Z) (url : string)
    (max_length start_index : Z) (raw : bool) :
    reachable E s ->
    reachable E (snd (fetch E t_read t_write url max_length start_index raw s)).

(** The calls that belong to a robots.txt check. *)
Definition robots_event (e : event) : bool :=
  match e with
  | RobotsGet _ | RobotsParse _ => true
  | PageGet _ | PdfConvert _ => false
  end.

Definition robots_events (l : list event) : list event :=
  filter robots_event l.

(** The requests for the page itself. *)
Definition page_event (e : event) : bool :=
  match e with
  | PageGet _ => true
  | RobotsGet _ | RobotsParse _ | PdfConvert _ => false
  end.

(** What a call [fetch(url, ...)] made with the user agent [ua] and the
    proxy [proxy] may ask of the network: the site's robots.txt, on a
    client that verifies certificates and sets no timeout, and the page,
    on a client that does not verify them, within thirty seconds. *)
Definition fetch_request_ok
  (E : Collaborators) (url ua : string) (proxy : option string) (e : event)
  : Prop :=
  match e with
  | RobotsGet r => r = mk_request (get_robots_txt_url E url) ua proxy true None
  | PageGet r => r = mk_request url ua proxy false (Some 30)
  | RobotsParse _ | PdfConvert _ => True
  end.

(** The window of [max_length] characters of [content] that starts at
    [k * max_length]. *)
Definition nth_window (content : string) (max_length : Z) (k : nat) : string :=
  slice content (Z.of_nat k * max_length)
        (Z.of_nat k * max_length + max_length).

(** No character of the line ends a line. *)
Fixpoint one_line (line : string) : bool :=
  match line with
  | EmptyString => true
  | String c line' => negb (is_linebreak c) && one_line line'
  end.

(** [s'] is [s] with the same configuration and a longer log, every
    call added to the log being one that [P] allows. *)
Definition extends (P : event -> Prop) (s s' : state) : Prop :=
  _custom_user_agent s' = _custom_user_agent s
  /\ _ignore_robots_txt s' = _ignore_robots_txt s
  /\ _proxy_url s' = _proxy_url s
  /\ exists l, log s' = (log s ++ l)%list /\ Forall P l.

Ltac run_monad :=
  unfold bind, ret, raise, get_state, emit, set_pdf_cache; cbn [fst snd].

(* ================================================================== *)
(** * Facts *)
(* ================================================================== *)

(** ** Strings *)

Example slice_mid : slice "abcdef" 2 4 = "cd".
Proof. reflexivity. Qed.

Example slice_from_end : slice "abcdef" (-2) 100 = "ef".
Proof. reflexivity. Qed.

Example slice_past_end : slice "abcdef" 7 9 = "".
Proof. reflexivity. Qed.

Example lower_mixed : lower "A.PdF" = "a.pdf".
Proof. reflexivity. Qed.

Example endswith_pdf : endswith "http://h/a.pdf" ".pdf" = true.
Proof. reflexivity. Qed.

Example contains_html : contains "<html" "  <html>" = true.
Proof. reflexivity. Qed.

Example of_int_examples :
  of_int 5000 = "5000" /\ of_int 0 = "0" /\ of_int (-7) = "-7".
Proof. repeat split. Qed.

Example splitlines_example :
  splitlines ("a" ++ nl ++ nl ++ "b" ++ nl) = ["a"; ""; "b"].
Proof. reflexivity. Qed.

Example processed_robot_txt_example :
  processed_robot_txt Demo.robots_body
  = "User-agent: *" ++ nl ++ "Disallow: /private".
Proof. reflexivity. Qed.

Lemma len_nonneg (s : string) : 0 <= len s.
Proof. unfold len. lia. Qed.

Lemma length_append (a b : string) :
  String.length (a ++ b) = (String.length a + String.length b)%nat.
Proof. induction a as [|c a IH]; simpl; [reflexivity | now rewrite IH]. Qed.

Lemma len_append (a b : string) : len (a ++ b) = len a + len b.
Proof. unfold len. rewrite length_append. lia. Qed.

Lemma length_take (n : nat) (s : string) :
  String.length (take n s) = Nat.min n (String.length s).
Proof.
  revert s. induction n as [|n IH]; intros [|c s]; simpl; try reflexivity.
  now rewrite IH.
Qed.

Lemma length_drop (n : nat) (s : string) :
  String.length (drop n s) = (String.length s - n)%nat.
Proof.
  revert s. induction n as [|n IH]; intros [|c s]; simpl; try reflexivity.
  apply IH.
Qed.

Lemma take_all (n : nat) (s : string) :
  (String.length s <= n)%nat -> take n s = s.
Proof.
  revert s. induction n as [|n IH]; intros [|c s] H; simpl in *;
    try reflexivity; try lia.
  f_equal. apply IH. lia.
Qed.

Lemma length_replicate (n : nat) (c : ascii) :
  String.length (replicate n c) = n.
Proof. induction n as [|n IH]; simpl; [reflexivity | now rewrite IH]. Qed.

Lemma length_zero_empty (s : string) : String.length s = 0%nat -> s = "".
Proof. destruct s; [reflexivity | discriminate]. Qed.

(** The length of a slice whose bounds are not negative. *)
Lemma len_slice (s : string) (lo hi : Z) :
  0 <= lo -> 0 <= hi ->
  len (slice s lo hi) = Z.max 0 (Z.min hi (len s) - Z.min lo (len s)).
Proof.
  intros Hlo Hhi. unfold slice, clamp_index.
  destruct (Z.ltb_spec lo 0) as [?|_]; [lia|].
  destruct (Z.ltb_spec hi 0) as [?|_]; [lia|].
  unfold len. rewrite length_take, length_drop. lia.
Qed.

(** [s[:hi]] is never longer than [hi]. *)
Lemma len_slice_prefix_le (s : string) (hi : Z) :
  0 <= hi -> len (slice s 0 hi) <= hi.
Proof.
  intros H. rewrite len_slice by lia. pose proof (len_nonneg s). lia.
Qed.

(** [s[:hi]] is [s] itself when [s] is short enough. *)
Lemma slice_prefix_short (s : string) (hi : Z) :
  len s <= hi -> slice s 0 hi = s.
Proof.
  intros H. pose proof (len_nonneg s) as Hs. unfold slice, clamp_index.
  change (0 <? 0) with false. cbv iota.
  destruct (Z.ltb_spec hi 0) as [?|_]; [lia|].
  rewrite (Z.min_l 0 (len s)) by lia.
  rewrite (Z.min_r hi (len s)) by lia.
  rewrite Z.sub_0_r. change (Z.to_nat 0) with 0%nat. change (drop 0 s) with s.
  apply take_all. unfold len. lia.
Qed.

Lemma eqb_empty_length (s : string) :
  String.eqb s "" = (String.length s =? 0)%nat.
Proof. destruct s; reflexivity. Qed.

(** ** The cache *)

Module TTLCacheFacts.

Import TTLCache.

Lemma length_expire (c : t) (now : Z) :
  (List.length (expire c now) <= List.length c)%nat.
Proof. apply filter_length_le. Qed.

Lemma length_remove (c : t) (k : string) :
  (List.length (remove c k) <= List.length c)%nat.
Proof. apply filter_length_le. Qed.

(** Storing never takes the cache past its capacity. *)
Lemma length_setitem (c : t) (k v : string) (now : Z) :
  (List.length c <= maxsize)%nat ->
  (List.length (setitem c k v now) <= maxsize)%nat.
Proof.
  intros Hc.
  pose proof (length_expire c now) as He.
  pose proof (length_remove (expire c now) k) as Hr.
  unfold setitem. cbv zeta. rewrite length_app.
  destruct (maxsize <=? List.length (remove (expire c now) k))%nat eqn:Hb.
  - apply Nat.leb_le in Hb. unfold evict_oldest.
    destruct (remove (expire c now) k) as [|e c1];
      unfold maxsize in *; cbn [tl List.length] in *; lia.
  - apply Nat.leb_gt in Hb. unfold maxsize in *. cbn [List.length]. lia.
Qed.

(** Nothing expires from a cache whose entries are all live. *)
Lemma expire_all_live (c : t) (now : Z) :
  forallb (live now) c = true -> expire c now = c.
Proof.
  unfold expire. induction c as [|e c IH]; simpl; [reflexivity|].
  intros H. apply andb_true_iff in H as [He Hc]. rewrite He.
  f_equal. now apply IH.
Qed.

(** Removing a key that is not stored changes nothing. *)
Lemma remove_absent (c : t) (k : string) :
  ~ In k (keys c) -> remove c k = c.
Proof.
  unfold remove, keys. induction c as [|e c IH]; simpl; [reflexivity|].
  intros H. destruct (String.eqb_spec (key e) k) as [Heq|Hne].
  - exfalso. apply H. now left.
  - simpl. f_equal. apply IH. intros Hin. apply H. now right.
Qed.

Lemma lookup_absent (c : t) (k : string) :
  ~ In k (keys c) -> lookup c k = None.
Proof.
  unfold lookup, keys. induction c as [|e c IH]; simpl; [reflexivity|].
  intros H. destruct (String.eqb_spec (key e) k) as [Heq|Hne].
  - exfalso. apply H. now left.
  - apply IH. intros Hin. apply H. now right.
Qed.

Lemma keys_remove (c : t) (k : string) : ~ In k (keys (remove c k)).
Proof.
  unfold remove, keys. rewrite in_map_iff. intros [e [Hk Hin]].
  apply filter_In in Hin as [_ Hne]. subst k.
  now rewrite String.eqb_refl in Hne.
Qed.

Lemma keys_tl (c : t) (k : string) :
  ~ In k (keys c) -> ~ In k (keys (tl c)).
Proof. destruct c as [|e c]; simpl; intuition. Qed.

Lemma lookup_app_absent (c : t) (k : string) (e : entry) :
  ~ In k (keys c) -> key e = k -> lookup (c ++ [e])%list k = Some e.
Proof.
  intros Habs Hk. unfold lookup, keys in *.
  induction c as [|e0 c IH]; simpl.
  - now rewrite Hk, String.eqb_refl.
  - destruct (String.eqb_spec (key e0) k) as [Heq|Hne].
    + exfalso. apply Habs. now left.
    + apply IH. intros Hin. apply Habs. now right.
Qed.

(** What was just stored is what a lookup finds. *)
Lemma lookup_setitem (c : t) (k v : string) (now : Z) :
  lookup (setitem c k v now) k = Some (mk_entry k v (now + ttl)).
Proof.
  unfold setitem. apply lookup_app_absent; [|reflexivity].
  destruct (maxsize <=? _)%nat; [apply keys_tl|]; apply keys_remove.
Qed.

(** A stored text is readable until its time to live is over. *)
Lemma getitem_setitem (c : t) (k v : string) (now later : Z) :
  later < now + ttl -> getitem (setitem c k v now) k later = Some v.
Proof.
  intros H. unfold getitem. rewrite lookup_setitem. unfold live. simpl.
  destruct (Z.ltb_spec later (now + ttl)); [reflexivity | lia].
Qed.

Lemma contains_setitem (c : t) (k v : string) (now later : Z) :
  contains (setitem c k v now) k later = (later <? now + ttl).
Proof. unfold contains. now rewrite lookup_setitem. Qed.

(** A key the cache contains can be read. *)
Lemma contains_getitem (c : t) (k : string) (now : Z) :
  contains c k now = true -> exists v, getitem c k now = Some v.
Proof.
  unfold contains, getitem. destruct (lookup c k) as [e|]; [|discriminate].
  intros ->. now exists (value e).
Qed.

(** A full cache of live entries that takes a new key loses its oldest
    entry and nothing else. *)
Lemma setitem_full (c : t) (oldest : entry) (rest : t) (k v : string)
  (now : Z) :
  c = oldest :: rest ->
  List.length c = maxsize ->
  forallb (live now) c = true ->
  ~ In k (keys c) ->
  setitem c k v now = (rest ++ [mk_entry k v (now + ttl)])%list.
Proof.
  intros Hc Hlen Hlive Habs. unfold setitem.
  rewrite (expire_all_live c now Hlive), (remove_absent c k Habs).
  rewrite Hlen, Nat.leb_refl. now subst c.
Qed.

(** A cache with room left that takes a new key loses nothing. *)
Lemma setitem_room (c : t) (k v : string) (now : Z) :
  (List.length c < maxsize)%nat ->
  forallb (live now) c = true ->
  ~ In k (keys c) ->
  setitem c k v now = (c ++ [mk_entry k v (now + ttl)])%list.
Proof.
  intros Hlen Hlive Habs. unfold setitem.
  rewrite (expire_all_live c now Hlive), (remove_absent c k Habs).
  destruct (Nat.leb_spec maxsize (List.length c)); [lia | reflexivity].
Qed.

(** Every entry of the cache after a store is an entry it had or the
    new one. *)
Lemma In_setitem (c : t) (k v : string) (now : Z) (e : entry) :
  In e (setitem c k v now) -> In e c \/ e = mk_entry k v (now + ttl).
Proof.
  unfold setitem. intros H. apply in_app_or in H as [H|H].
  - left.
    assert (In e (remove (expire c now) k)) as H1.
    { destruct (maxsize <=? _)%nat; [|exact H].
      unfold evict_oldest in H.
      destruct (remove (expire c now) k); [contradiction | now right]. }
    unfold remove, expire in H1.
    apply filter_In in H1 as [H1 _]. now apply filter_In in H1 as [H1 _].
  - right. destruct H as [H|[]]. now symmetry.
Qed.

End TTLCacheFacts.

(** ** What each operation does to the state *)

Lemma cache_ok_empty : cache_ok TTLCache.empty.
Proof. split; [unfold TTLCache.maxsize; simpl; lia | constructor]. Qed.

Lemma cache_ok_step (c c' : TTLCache.t) :
  cache_step c c' -> cache_ok c -> cache_ok c'.
Proof.
  intros Hstep [Hlen Hval]. destruct Hstep as [|k text now]; [now split|].
  split; [now apply TTLCacheFacts.length_setitem|].
  apply Forall_forall. intros e He.
  apply TTLCacheFacts.In_setitem in He as [He| ->].
  - rewrite Forall_forall in Hval. now apply Hval.
  - simpl. apply len_slice_prefix_le. unfold PDF_TEXT_CAP. lia.
Qed.

Section ServerFacts.

Variable E : Collaborators.

Lemma getitem_contains (c : TTLCache.t) (k v : string) (now : Z) :
  TTLCache.getitem c k now = Some v -> TTLCache.contains c k now = true.
Proof.
  unfold TTLCache.getitem, TTLCache.contains.
  destruct (TTLCache.lookup c k) as [e|]; [|discriminate].
  now destruct (TTLCache.live now e).
Qed.

(** A hit: the cached text is returned, nothing is converted and the
    state stays as it is. *)
Lemma extract_content_from_pdf_hit
  (t_read t_write : Z) (data : list byte) (url cached : string) (s : state) :
  TTLCache.getitem (_pdf_cache s) url t_read = Some cached ->
  extract_content_from_pdf E t_read t_write data url s = (Return cached, s).
Proof.
  intros Hget. unfold extract_content_from_pdf. run_monad.
  now rewrite (getitem_contains _ _ _ _ Hget), Hget.
Qed.

(** A miss whose conversion succeeds: the conversion is logged, the
    text cut to the cap is stored, and the text as converted is
    returned. *)
Lemma extract_content_from_pdf_miss
  (t_read t_write : Z) (data : list byte) (url text : string) (s : state) :
  TTLCache.contains (_pdf_cache s) url t_read = false ->
  markitdown_convert E data = Some text ->
  extract_content_from_pdf E t_read t_write data url s
  = (Return text,
     mk_state (_custom_user_agent s) (_ignore_robots_txt s) (_proxy_url s)
       (TTLCache.setitem (_pdf_cache s) url (slice text 0 PDF_TEXT_CAP)
                         t_write)
       (log s ++ [PdfConvert data])%list).
Proof.
  intros Hmiss Hconv. unfold extract_content_from_pdf. run_monad.
  rewrite Hmiss. cbn. now rewrite Hconv.
Qed.

(** A miss whose conversion fails stores nothing. *)
Lemma extract_content_from_pdf_failure
  (t_read t_write : Z) (data : list byte) (url : string) (s : state) :
  TTLCache.contains (_pdf_cache s) url t_read = false ->
  markitdown_convert E data = None ->
  extract_content_from_pdf E t_read t_write data url s
  = (Raise ConversionFailed,
     mk_state (_custom_user_agent s) (_ignore_robots_txt s) (_proxy_url s)
       (_pdf_cache s) (log s ++ [PdfConvert data])%list).
Proof.
  intros Hmiss Hconv. unfold extract_content_from_pdf. run_monad.
  rewrite Hmiss. cbn. now rewrite Hconv.
Qed.

Lemma extract_content_from_pdf_cache_step
  (t_read t_write : Z) (data : list byte) (url : string) (s : state) :
  cache_step (_pdf_cache s)
    (_pdf_cache (snd (extract_content_from_pdf E t_read t_write data url s))).
Proof.
  destruct (TTLCache.contains (_pdf_cache s) url t_read) eqn:Hc.
  - destruct (TTLCacheFacts.contains_getitem _ _ _ Hc) as [v Hv].
    rewrite (extract_content_from_pdf_hit _ t_write data _ _ _ Hv).
    constructor.
  - destruct (markitdown_convert E data) as [text|] eqn:Hconv.
    + rewrite (extract_content_from_pdf_miss _ _ _ _ _ _ Hc Hconv).
      cbn. constructor.
    + rewrite (extract_content_from_pdf_failure _ _ _ _ _ Hc Hconv).
      cbn. constructor.
Qed.

(** The robots.txt check only adds to the log. *)
Lemma check_may_autonomously_fetch_url_frame
  (url user_agent : string) (proxy_url : option string) (s : state) :
  let s' := snd (check_may_autonomously_fetch_url E url user_agent proxy_url s)
  in _custom_user_agent s' = _custom_user_agent s
     /\ _ignore_robots_txt s' = _ignore_robots_txt s
     /\ _proxy_url s' = _proxy_url s
     /\ _pdf_cache s' = _pdf_cache s.
Proof.
  unfold check_may_autonomously_fetch_url. run_monad.
  destruct (http_get E _) as [e|r]; cbn; [now repeat split|].
  destruct ((status_code r =? 401) || (status_code r =? 403));
    cbn; [now repeat split|].
  destruct ((400 <=? status_code r) && (status_code r <? 500));
    cbn; [now repeat split|].
  destruct (negb (can_fetch E _ _ _)); cbn; now repeat split.
Qed.

Lemma fetch_url_cache_step
  (t_read t_write : Z) (url user_agent : string) (force_raw : bool)
  (proxy_url : option string) (verify_ssl : bool) (s : state) :
  cache_step (_pdf_cache s)
    (_pdf_cache (snd (fetch_url E t_read t_write url user_agent force_raw
                                proxy_url verify_ssl s))).
Proof.
  unfold fetch_url. unfold bind at 1. unfold emit at 1. cbn [fst snd].
  destruct (http_get E _) as [e|r]; [constructor|].
  destruct (status_code r >=? 400); [constructor|].
  destruct (is_pdf _ _ _).
  - unfold bind.
    match goal with
    | |- context [extract_content_from_pdf E ?a ?b ?d ?u ?st] =>
        pose proof (extract_content_from_pdf_cache_step a b d u st) as Hstep;
        destruct (extract_content_from_pdf E a b d u st) as [[text|e] st']
    end; exact Hstep.
  - destruct (is_page_html _ _ && negb force_raw); constructor.
Qed.

Lemma fetch_cache_step
  (t_read t_write : Z) (url : string) (max_length start_index : Z)
  (raw : bool) (s : state) :
  cache_step (_pdf_cache s)
    (_pdf_cache (snd (fetch E t_read t_write url max_length start_index raw s))).
Proof.
  unfold fetch.
  destruct ((max_length <=? 0) || (max_length >=? 1000000)); [constructor|].
  destruct (start_index <? 0); [constructor|].
  destruct (String.eqb url ""); [constructor|].
  unfold bind at 1. unfold get_state at 1. unfold bind at 1.
  assert (exists o s1,
             (if negb (_ignore_robots_txt s)
              then check_may_autonomously_fetch_url E url
                     (user_agent_autonomous s) (_proxy_url s)
              else ret tt) s = (o, s1)
             /\ _pdf_cache s1 = _pdf_cache s) as (o & s1 & Hrun & Hcache).
  { destruct (negb (_ignore_robots_txt s)).
    - pose proof (check_may_autonomously_fetch_url_frame
                    url (user_agent_autonomous s) (_proxy_url s) s) as H.
      cbv zeta in H.
      destruct (check_may_autonomously_fetch_url E url _ _ s) as [o s1].
      exists o, s1. split; [reflexivity | apply H].
    - exists (Return tt), s. now split. }
  rewrite Hrun. destruct o as [[]|e]; [|rewrite <- Hcache; constructor].
  unfold bind.
  match goal with
  | |- context [fetch_url E ?a ?b ?u ?ua ?r ?p ?v ?st] =>
      pose proof (fetch_url_cache_step a b u ua r p v st) as Hstep;
      destruct (fetch_url E a b u ua r p v st) as [[cp|e] st']
  end; cbn [fst snd] in *; now rewrite <- Hcache.
Qed.

(** At all times the cache is within its capacity and every text in it
    is within the cap. *)
Lemma reachable_cache_ok (s : state) : reachable E s -> cache_ok (_pdf_cache s).
Proof.
  induction 1 as [|s ua ignore proxy _ IH|s t_read t_write url ml si raw _ IH].
  - apply cache_ok_empty.
  - exact IH.
  - eapply cache_ok_step; [apply fetch_cache_step | exact IH].
Qed.

End ServerFacts.

(* ================================================================== *)
(** * The PDF cache: what is stored and what is returned *)
(* ================================================================== *)

Lemma len_long_text : len Demo.long_text = 10000001.
Proof.
  unfold len, Demo.long_text. rewrite length_replicate.
  unfold Demo.long_length. now rewrite N_nat_Z.
Qed.

Lemma len_long_text_capped :
  len (slice Demo.long_text 0 PDF_TEXT_CAP) = 10000000.
Proof.
  rewrite len_slice by (unfold PDF_TEXT_CAP; lia).
  rewrite len_long_text. reflexivity.
Qed.

(** Every text the cache stores is within the cap, in every state the
    server can be in. *)
Lemma stored_text_within_cap (E : Collaborators) (s : state)
  (e : TTLCache.entry) :
  reachable E s -> In e (_pdf_cache s) ->
  len (TTLCache.value e) <= PDF_TEXT_CAP.
Proof.
  intros Hs He. destruct (reachable_cache_ok E s Hs) as [_ Hval].
  rewrite Forall_forall in Hval. now apply Hval.
Qed.

(** A text within the cap is returned on a miss as it is stored. *)
Lemma extract_content_from_pdf_miss_short
  (E : Collaborators) (t_read t_write : Z) (data : list byte)
  (url text : string) (s : state) :
  TTLCache.contains (_pdf_cache s) url t_read = false ->
  markitdown_convert E data = Some text ->
  len text <= PDF_TEXT_CAP ->
  exists s',
    extract_content_from_pdf E t_read t_write data url s = (Return text, s')
    /\ TTLCache.getitem (_pdf_cache s') url t_write = Some text.
Proof.
  intros Hmiss Hconv Hlen. eexists. split.
  - now apply extract_content_from_pdf_miss.
  - cbn. rewrite (slice_prefix_short text _ Hlen).
    apply TTLCacheFacts.getitem_setitem. unfold TTLCache.ttl. lia.
Qed.

(** C1, at the input where the code departs from the claim.  The PDF at
    [Demo.pdf_url] converts to a text of 10,000,001 characters and the
    cache is empty.  The call stores the first 10,000,000 characters
    under the URL, and returns all 10,000,001: the text returned on a
    miss is the text as converted (server.py:111), not the capped text
    that was stored (server.py:110). *)
Theorem extract_content_from_pdf_miss_returns_uncapped_text :
  exists s' : state,
    extract_content_from_pdf (Demo.world Demo.long_text) 0 0
                             Demo.pdf_bytes Demo.pdf_url initial_state
    = (Return Demo.long_text, s')
    /\ len Demo.long_text = 10000001
    /\ TTLCache.getitem (_pdf_cache s') Demo.pdf_url 0
       = Some (slice Demo.long_text 0 PDF_TEXT_CAP)
    /\ len (slice Demo.long_text 0 PDF_TEXT_CAP) = 10000000.
Proof.
  eexists. split; [|split; [|split]].
  - apply extract_content_from_pdf_miss; reflexivity.
  - exact len_long_text.
  - cbn [_pdf_cache]. apply TTLCacheFacts.getitem_setitem.
    unfold TTLCache.ttl. lia.
  - exact len_long_text_capped.
Qed.

(** A second extraction for the same URL, made while the stored entry
    is live and with no store in between, returns the stored text,
    converts nothing and leaves the state as it is. *)
Lemma extract_content_from_pdf_again
  (E : Collaborators) (t_read t_write t_again t_unused : Z)
  (data data' : list byte) (url text : string) (s : state) :
  TTLCache.contains (_pdf_cache s) url t_read = false ->
  markitdown_convert E data = Some text ->
  t_again < t_write + TTLCache.ttl ->
  let s1 := snd (extract_content_from_pdf E t_read t_write data url s) in
  extract_content_from_pdf E t_again t_unused data' url s1
  = (Return (slice text 0 PDF_TEXT_CAP), s1).
Proof.
  intros Hmiss Hconv Hlive s1. subst s1.
  rewrite (extract_content_from_pdf_miss E _ _ _ _ _ _ Hmiss Hconv).
  cbn [snd]. apply extract_content_from_pdf_hit. cbn [_pdf_cache].
  now apply TTLCacheFacts.getitem_setitem.
Qed.

(** Any two extractions that hit the same live entry return the same
    text. *)
Lemma extract_content_from_pdf_hits_agree
  (E : Collaborators) (t1 t1' t2 t2' : Z) (data1 data2 : list byte)
  (url cached : string) (s : state) :
  TTLCache.getitem (_pdf_cache s) url t1 = Some cached ->
  t2 < t1 \/ TTLCache.contains (_pdf_cache s) url t2 = true ->
  extract_content_from_pdf E t1 t1' data1 url s = (Return cached, s)
  /\ extract_content_from_pdf E t2 t2' data2 url s = (Return cached, s).
Proof.
  intros Hget Hlater. split; [now apply extract_content_from_pdf_hit|].
  apply extract_content_from_pdf_hit.
  unfold TTLCache.getitem, TTLCache.contains, TTLCache.live in *.
  destruct (TTLCache.lookup (_pdf_cache s) url) as [e|]; [|discriminate].
  destruct (Z.ltb_spec t1 (TTLCache.expires e)); [|discriminate].
  destruct Hlater as [Hlt|Hc].
  - destruct (Z.ltb_spec t2 (TTLCache.expires e)); [exact Hget | lia].
  - now rewrite Hc.
Qed.

(** C2, at the input where the code departs from the claim.  The PDF at
    [Demo.pdf_url] converts to a text of 10,000,001 characters; it is
    extracted at instant 0 with an empty cache and again at instant 1,
    well within the time to live.  The second call converts nothing and
    leaves the state as it is, its text coming from the cache, but the
    two texts differ: 10,000,001 characters the first time, 10,000,000
    the second. *)
Theorem repeated_extraction_of_long_text_differs :
  exists (text1 text2 : string) (s1 : state),
    extract_content_from_pdf (Demo.world Demo.long_text) 0 0
                             Demo.pdf_bytes Demo.pdf_url initial_state
    = (Return text1, s1)
    /\ extract_content_from_pdf (Demo.world Demo.long_text) 1 1
                                Demo.pdf_bytes Demo.pdf_url s1
       = (Return text2, s1)
    /\ log s1 = [PdfConvert Demo.pdf_bytes]
    /\ len text1 = 10000001
    /\ len text2 = 10000000.
Proof.
  exists Demo.long_text, (slice Demo.long_text 0 PDF_TEXT_CAP).
  eexists. split; [|split; [|split; [|split]]].
  - apply extract_content_from_pdf_miss; reflexivity.
  - apply extract_content_from_pdf_hit. cbn [_pdf_cache].
    apply TTLCacheFacts.getitem_setitem. unfold TTLCache.ttl. lia.
  - reflexivity.
  - exact len_long_text.
  - exact len_long_text_capped.
Qed.

(* ================================================================== *)
(** * The robots.txt flag *)
(* ================================================================== *)

Lemma robots_events_app (l1 l2 : list event) :
  robots_events (l1 ++ l2) = (robots_events l1 ++ robots_events l2)%list.
Proof. apply filter_app. Qed.

Section RobotsFlag.

Variable E : Collaborators.

Lemma extract_content_from_pdf_log
  (t_read t_write : Z) (data : list byte) (url : string) (s : state) :
  exists l,
    log (snd (extract_content_from_pdf E t_read t_write data url s))
    = (log s ++ l)%list
    /\ robots_events l = [].
Proof.
  destruct (TTLCache.contains (_pdf_cache s) url t_read) eqn:Hc.
  - destruct (TTLCacheFacts.contains_getitem _ _ _ Hc) as [v Hv].
    rewrite (extract_content_from_pdf_hit E _ t_write data _ _ _ Hv).
    exists []. now rewrite app_nil_r.
  - exists [PdfConvert data].
    destruct (markitdown_convert E data) as [text|] eqn:Hconv.
    + now rewrite (extract_content_from_pdf_miss E _ _ _ _ _ _ Hc Hconv).
    + now rewrite (extract_content_from_pdf_failure E _ _ _ _ _ Hc Hconv).
Qed.

(** Fetching the page itself makes no call of a robots.txt check. *)
Lemma fetch_url_log
  (t_read t_write : Z) (url user_agent : string) (force_raw : bool)
  (proxy_url : option string) (verify_ssl : bool) (s : state) :
  exists l,
    log (snd (fetch_url E t_read t_write url user_agent force_raw
                        proxy_url verify_ssl s))
    = (log s ++ l)%list
    /\ robots_events l = [].
Proof.
  unfold fetch_url. unfold bind at 1. unfold emit at 1. cbn [fst snd].
  set (req := mk_request url user_agent proxy_url verify_ssl (Some 30)).
  destruct (http_get E req) as [e|r]; [now exists [PageGet req]|].
  destruct (status_code r >=? 400); [now exists [PageGet req]|].
  destruct (is_pdf _ _ _).
  - unfold bind.
    match goal with
    | |- context [extract_content_from_pdf E ?a ?b ?d ?u ?st] =>
        destruct (extract_content_from_pdf_log a b d u st) as (l & Hl & Hr);
        destruct (extract_content_from_pdf E a b d u st) as [[text|e] st']
    end; unfold ret; cbn [fst snd log] in *; exists (PageGet req :: l);
      rewrite Hl, <- app_assoc; now split.
  - destruct (is_page_html _ _ && negb force_raw); now exists [PageGet req].
Qed.

(** With [_ignore_robots_txt] set, [fetch] makes no call of a
    robots.txt check. *)
Lemma fetch_ignoring_robots_txt
  (t_read t_write : Z) (url : string) (max_length start_index : Z)
  (raw : bool) (s : state) :
  _ignore_robots_txt s = true ->
  robots_events
    (log (snd (fetch E t_read t_write url max_length start_index raw s)))
  = robots_events (log s).
Proof.
  intros Hflag. unfold fetch.
  destruct ((max_length <=? 0) || (max_length >=? 1000000)); [reflexivity|].
  destruct (start_index <? 0); [reflexivity|].
  destruct (String.eqb url ""); [reflexivity|].
  unfold bind at 1. unfold get_state at 1. rewrite Hflag. unfold bind.
  cbn [negb ret].
  match goal with
  | |- context [fetch_url E ?a ?b ?u ?ua ?r ?p ?v ?st] =>
      destruct (fetch_url_log a b u ua r p v st) as (l & Hl & Hr);
      destruct (fetch_url E a b u ua r p v st) as [[cp|e] st']
  end; unfold ret; cbn [fst snd] in *; rewrite Hl, robots_events_app, Hr;
    apply app_nil_r.
Qed.


End RobotsFlag.

(** Started through [serve] with its parameter left at its default, the
    server ignores robots.txt; so it does before any configuration. *)
Lemma serve_default_ignores_robots_txt
  (ua proxy : option string) (port : option Z) (transport : string) :
  _ignore_robots_txt initial_state = true
  /\ _ignore_robots_txt
       (snd (serve ua ignore_robots_txt_default proxy port transport
                   initial_state)) = true.
Proof. now split. Qed.

(** A command line that does not name [--ignore-robots-txt] leaves the
    flag at the [False] it starts from. *)
Lemma parse_args_from_without_flag (n : nat) :
  forall (argv : list string) (ns ns' : Namespace),
    (List.length argv <= n)%nat ->
    ~ In "--ignore-robots-txt" argv ->
    parse_args_from ns argv = Some ns' ->
    args_ignore_robots_txt ns' = args_ignore_robots_txt ns.
Proof.
  induction n as [|n IH]; intros argv ns ns' Hlen Hno Hparse.
  - destruct argv; [|simpl in Hlen; lia]. now inversion Hparse.
  - destruct argv as [|opt rest]; [now inversion Hparse|].
    cbn [parse_args_from] in Hparse.
    destruct (String.eqb_spec opt "--ignore-robots-txt") as [->|_].
    { exfalso. apply Hno. now left. }
    destruct rest as [|v rest']; [discriminate|].
    assert (~ In "--ignore-robots-txt" rest') as Hno'.
    { intros Hin. apply Hno. right. now right. }
    assert (List.length rest' <= n)%nat as Hlen' by (simpl in Hlen; lia).
    destruct (String.eqb opt "--user-agent").
    { now rewrite (IH _ _ _ Hlen' Hno' Hparse). }
    destruct (String.eqb opt "--proxy-url").
    { now rewrite (IH _ _ _ Hlen' Hno' Hparse). }
    destruct (String.eqb opt "--port").
    { destruct (parse_port v); [|discriminate].
      now rewrite (IH _ _ _ Hlen' Hno' Hparse). }
    destruct (String.eqb opt "--transport"); [|discriminate].
    destruct (String.eqb v "stdio" || String.eqb v "http"); [|discriminate].
    now rewrite (IH _ _ _ Hlen' Hno' Hparse).
Qed.

(** Started from the command line without [--ignore-robots-txt], the
    server runs with [_ignore_robots_txt] cleared. *)
Lemma main_without_flag (argv : list string) (s : state) :
  ~ In "--ignore-robots-txt" argv ->
  main argv = Some s ->
  _ignore_robots_txt s = false.
Proof.
  intros Hno Hmain. unfold main, parse_args in Hmain.
  destruct (parse_args_from namespace_defaults argv) as [args|] eqn:Hparse;
    [|discriminate].
  inversion Hmain; subst s; clear Hmain. cbn.
  now rewrite (parse_args_from_without_flag _ argv _ _ (le_n _) Hno Hparse).
Qed.

(** C3, at the input where the code departs from the claim.  The server
    is started from the command line with no argument at all.  [main]
    hands [serve] the [False] that argparse gives an absent
    [store_true] flag, which overrides the default [True] of [serve],
    of [configure_server] and of the global; the server runs with
    [_ignore_robots_txt] cleared, a fetch then requests and parses the
    site's robots.txt before it requests the page, and a page the rules
    disallow is refused. *)
Theorem main_without_flag_enforces_robots_txt :
  exists (s s' : state) (out msg : string),
    main [] = Some s
    /\ _ignore_robots_txt s = false
    /\ fetch (Demo.world "") 0 0 Demo.page_url 5000 0 false s
       = (Return out, s')
    /\ map robots_event (log s') = [true; true; false]
    /\ fst (fetch (Demo.world "") 0 0 Demo.private_url 5000 0 false s)
       = Raise (ValueError msg).
Proof.
  do 4 eexists.
  split; [reflexivity|]. split; [reflexivity|].
  split; [vm_compute; reflexivity|]. split; [reflexivity|].
  vm_compute. reflexivity.
Qed.

(* ================================================================== *)
(** * The capacity of the PDF cache *)
(* ================================================================== *)

(** C4.  The PDF cache holds at most 20 entries in every state the
    server can be in.  When it holds 20 live entries and a PDF is
    extracted for a URL it does not hold, exactly one entry goes, the
    one inserted first, and the new entry becomes the newest.  A read
    that hits leaves the cache, and so the order of eviction, as it is:
    the order is that of insertion, not of access. *)
Theorem pdf_cache_bounded_and_evicts_oldest (E : Collaborators) :
  (forall s : state,
      reachable E s -> (List.length (_pdf_cache s) <= 20)%nat)
  /\ (forall (t_read t_write : Z) (data : list byte) (url text : string)
             (s : state) (oldest : TTLCache.entry) (rest : TTLCache.t),
         _pdf_cache s = oldest :: rest ->
         List.length (_pdf_cache s) = 20%nat ->
         forallb (TTLCache.live t_write) (_pdf_cache s) = true ->
         ~ In url (TTLCache.keys (_pdf_cache s)) ->
         markitdown_convert E data = Some text ->
         _pdf_cache
           (snd (extract_content_from_pdf E t_read t_write data url s))
         = (rest ++ [TTLCache.mk_entry url (slice text 0 PDF_TEXT_CAP)
                                       (t_write + 600)])%list)
  /\ (forall (t_read t_write : Z) (data : list byte) (url cached : string)
             (s : state),
         TTLCache.getitem (_pdf_cache s) url t_read = Some cached ->
         extract_content_from_pdf E t_read t_write data url s
         = (Return cached, s)).
Proof.
  split; [|split].
  - intros s Hs. now destruct (reachable_cache_ok E s Hs).
  - intros t_read t_write data url text s oldest rest Hc Hlen Hlive Habs Hconv.
    assert (TTLCache.contains (_pdf_cache s) url t_read = false) as Hmiss.
    { unfold TTLCache.contains.
      now rewrite (TTLCacheFacts.lookup_absent _ _ Habs). }
    rewrite (extract_content_from_pdf_miss E _ _ _ _ _ _ Hmiss Hconv).
    cbn [snd _pdf_cache].
    now apply (TTLCacheFacts.setitem_full _ oldest).
  - intros. now apply extract_content_from_pdf_hit.
Qed.

(** The cache of [Demo.full_state] holds the twenty URLs [u/0] to
    [u/19], all live at instant 1; extracting the PDF at [Demo.pdf_url]
    then drops [u/0] and nothing else. *)
Lemma pdf_cache_evicts_oldest_witness :
  TTLCache.keys
    (_pdf_cache
       (snd (extract_content_from_pdf (Demo.world "PDF text") 1 1
               Demo.pdf_bytes Demo.pdf_url Demo.full_state)))
  = (tl (TTLCache.keys (Demo.numbered 20)) ++ [Demo.pdf_url])%list.
Proof.
  rewrite (proj1 (proj2 (pdf_cache_bounded_and_evicts_oldest
                           (Demo.world "PDF text")))
             1 1 Demo.pdf_bytes Demo.pdf_url "PDF text" Demo.full_state
             (TTLCache.mk_entry "u/0" "t" 600)
             (tl (Demo.numbered 20))).
  - reflexivity.
  - reflexivity.
  - reflexivity.
  - reflexivity.
  - vm_compute. intuition discriminate.
  - reflexivity.
Defined.

(* ================================================================== *)
(** * Pagination and the format of the result *)
(* ================================================================== *)

(** C5.  When [start_index] is at or past the end of the content, and
    also when the selected substring is empty, the content of the
    result is exactly the marker
    [<error>No more content available.</error>]. *)
Theorem paginate_no_more_content (content : string) (start_index max_length : Z) :
  len content <= start_index
  \/ slice content start_index (start_index + max_length) = "" ->
  paginate content start_index max_length
  = "<error>No more content available.</error>".
Proof.
  intros H. unfold paginate.
  destruct (Z.geb_spec start_index (len content)) as [_|Hlt]; [reflexivity|].
  destruct H as [H| ->]; [lia | reflexivity].
Qed.

Lemma paginate_no_more_content_witness :
  (len "abc" <= 5 \/ slice "abc" 5 (5 + 10) = "")
  /\ paginate "abc" 5 10 = "<error>No more content available.</error>".
Proof.
  split; [left; vm_compute; discriminate|].
  apply (paginate_no_more_content "abc" 5 10). left. vm_compute. discriminate.
Defined.

(** A full window with content left after it ends in the notice that
    names the next start index. *)
Lemma paginate_continuation (content : string) (start_index max_length : Z) :
  0 <= start_index -> 0 < max_length ->
  len (slice content start_index (start_index + max_length)) = max_length ->
  start_index + max_length < len content ->
  paginate content start_index max_length
  = slice content start_index (start_index + max_length)
    ++ continuation_notice (start_index + max_length).
Proof.
  intros Hstart Hmax Hfull Hmore. unfold paginate.
  destruct (Z.geb_spec start_index (len content)) as [?|_]; [lia|].
  rewrite eqb_empty_length.
  destruct (Nat.eqb_spec
              (String.length
                 (slice content start_index (start_index + max_length))) 0)
    as [Hz|_].
  { unfold len in Hfull. lia. }
  rewrite Hfull, Z.eqb_refl.
  destruct (Z.gtb_spec (len content - (start_index + max_length)) 0);
    [reflexivity | lia].
Qed.

(** A window that is not full, or that reaches the end of the content,
    is returned as it is. *)
Lemma paginate_last_window (content : string) (start_index max_length : Z) :
  0 <= start_index < len content -> 0 < max_length ->
  len content <= start_index + max_length ->
  paginate content start_index max_length
  = slice content start_index (start_index + max_length).
Proof.
  intros Hstart Hmax Hend. unfold paginate.
  destruct (Z.geb_spec start_index (len content)) as [?|_]; [lia|].
  assert (len (slice content start_index (start_index + max_length))
          = len content - start_index) as Hlen
      by (rewrite len_slice by lia; lia).
  rewrite eqb_empty_length.
  destruct (Nat.eqb_spec
              (String.length
                 (slice content start_index (start_index + max_length))) 0)
    as [Hz|_].
  { unfold len in Hlen at 1. lia. }
  rewrite Hlen.
  destruct (Z.gtb_spec (len content - (start_index + (len content - start_index))) 0);
    [lia|]. now rewrite andb_false_r.
Qed.

(** What a [fetch] that returns has done: its arguments were valid, the
    page was fetched, and the result is laid out by [format_result]. *)
Lemma fetch_return_inv
  (E : Collaborators) (t_read t_write : Z) (url : string)
  (max_length start_index : Z) (raw : bool) (s s' : state) (out : string) :
  fetch E t_read t_write url max_length start_index raw s = (Return out, s') ->
  0 < max_length < 1000000 /\ 0 <= start_index /\ url <> ""
  /\ exists (s0 : state) (content prefix : string),
      fetch_url E t_read t_write url (user_agent_autonomous s) raw
                (_proxy_url s) false s0
      = (Return (content, prefix), s')
      /\ out = format_result prefix url
                 (paginate content start_index max_length).
Proof.
  unfold fetch.
  destruct (Z.leb_spec max_length 0); [discriminate|].
  destruct (Z.geb_spec max_length 1000000); [discriminate|]. cbn [orb].
  destruct (Z.ltb_spec start_index 0); [discriminate|].
  destruct (String.eqb_spec url ""); [discriminate|].
  unfold bind at 1. unfold get_state at 1. unfold bind at 1.
  destruct ((if negb (_ignore_robots_txt s)
             then check_may_autonomously_fetch_url E url
                    (user_agent_autonomous s) (_proxy_url s)
             else ret tt) s) as [[[]|e] s0]; [|discriminate].
  unfold bind.
  destruct (fetch_url E t_read t_write url (user_agent_autonomous s) raw
              (_proxy_url s) false s0) as [[[content prefix]|e] s1] eqn:Hfetch;
    [|discriminate].
  unfold ret. cbn [fst snd]. intros Heq. inversion Heq; subst.
  repeat split; try lia; try assumption.
  exists s0, content, prefix. now split.
Qed.

(** C6.  Whenever [fetch] returns, its result is the advisory prefix of
    the fetched page, then [Contents of <url>:], a newline, and the
    content or marker that pagination selects; and when the substring
    taken has [max_length] characters and content remains beyond the
    window, that content is the substring followed by the notice naming
    [start_index + max_length] as the next start index. *)
Theorem fetch_result_format_and_continuation
  (E : Collaborators) (t_read t_write : Z) (url : string)
  (max_length start_index : Z) (raw : bool) (s s' : state) (out : string) :
  fetch E t_read t_write url max_length start_index raw s = (Return out, s') ->
  exists (s0 : state) (content prefix : string),
    fetch_url E t_read t_write url (user_agent_autonomous s) raw
              (_proxy_url s) false s0
    = (Return (content, prefix), s')
    /\ out = prefix ++ "Contents of " ++ url ++ ":" ++ nl
             ++ paginate content start_index max_length
    /\ (len (slice content start_index (start_index + max_length))
        = max_length ->
        start_index + max_length < len content ->
        paginate content start_index max_length
        = slice content start_index (start_index + max_length)
          ++ nl ++ nl
          ++ "<error>Content truncated. Call the fetch tool with a start_index of "
          ++ of_int (start_index + max_length)
          ++ " to get more content.</error>").
Proof.
  intros Hrun.
  destruct (fetch_return_inv _ _ _ _ _ _ _ _ _ _ Hrun)
    as (Hmax & Hstart & _ & s0 & content & prefix & Hfetch & Hout).
  exists s0, content, prefix. split; [exact Hfetch|]. split; [exact Hout|].
  intros Hfull Hmore.
  rewrite paginate_continuation by (assumption || lia). reflexivity.
Qed.

Lemma fetch_result_format_and_continuation_witness :
  exists (s0 : state) (content prefix : string),
    fetch_url (Demo.world "") 0 0 Demo.page_url
              (user_agent_autonomous initial_state) false
              (_proxy_url initial_state) false s0
    = (Return (content, prefix),
       snd (fetch (Demo.world "") 0 0 Demo.page_url 3 0 false initial_state))
    /\ "Content type text/plain cannot be simplified to markdown, but here is the raw content:"
       ++ nl ++ "Contents of https://example.com/page:" ++ nl ++ "abc"
       ++ nl ++ nl
       ++ "<error>Content truncated. Call the fetch tool with a start_index of 3 to get more content.</error>"
       = prefix ++ "Contents of " ++ Demo.page_url ++ ":" ++ nl
         ++ paginate content 0 3
    /\ (len (slice content 0 (0 + 3)) = 3 ->
        0 + 3 < len content ->
        paginate content 0 3
        = slice content 0 (0 + 3)
          ++ nl ++ nl
          ++ "<error>Content truncated. Call the fetch tool with a start_index of "
          ++ of_int (0 + 3)
          ++ " to get more content.</error>").
Proof.
  apply (fetch_result_format_and_continuation
           (Demo.world "") 0 0 Demo.page_url 3 0 false initial_state).
  vm_compute. reflexivity.
Defined.

(* ================================================================== *)
(** * Validation *)
(* ================================================================== *)

(** C7.  A call whose [max_length] is at most 0 or at least 1000000,
    whose [start_index] is negative or whose [url] is empty raises a
    [ValueError] and leaves the state, log of outside calls included,
    as it was: nothing is requested from the network.  The message is
    that of the first check that fails, and the three messages
    differ. *)
Theorem fetch_validation
  (E : Collaborators) (t_read t_write : Z) (url : string)
  (max_length start_index : Z) (raw : bool) (s : state) :
  max_length <= 0 \/ max_length >= 1000000 \/ start_index < 0 \/ url = "" ->
  exists msg : string,
    fetch E t_read t_write url max_length start_index raw s
    = (Raise (ValueError msg), s)
    /\ (max_length <= 0 \/ max_length >= 1000000 ->
        msg = "max_length must be between 1 and 999999")
    /\ (0 < max_length < 1000000 -> start_index < 0 ->
        msg = "start_index must be >= 0")
    /\ (0 < max_length < 1000000 -> 0 <= start_index ->
        msg = "URL is required")
    /\ "max_length must be between 1 and 999999" <> "start_index must be >= 0"
    /\ "max_length must be between 1 and 999999" <> "URL is required"
    /\ "start_index must be >= 0" <> "URL is required".
Proof.
  intros Hbad. unfold fetch.
  destruct (Z.leb_spec max_length 0) as [Hle|Hgt].
  { eexists. split; [reflexivity|].
    repeat split; intros; (reflexivity || lia || discriminate). }
  destruct (Z.geb_spec max_length 1000000) as [Hge|Hlt].
  { eexists. split; [reflexivity|].
    repeat split; intros; (reflexivity || lia || discriminate). }
  cbn [orb]. destruct (Z.ltb_spec start_index 0) as [Hneg|Hpos].
  { eexists. split; [reflexivity|].
    repeat split; intros; (reflexivity || lia || discriminate). }
  destruct (String.eqb_spec url "") as [Hempty|Hurl].
  { eexists. split; [reflexivity|].
    repeat split; intros; (reflexivity || lia || discriminate). }
  exfalso. destruct Hbad as [?|[?|[?|?]]]; (lia || contradiction).
Qed.

Lemma fetch_validation_witness :
  exists msg : string,
    fetch (Demo.world "") 0 0 Demo.page_url 1000000 0 false initial_state
    = (Raise (ValueError msg), initial_state)
    /\ (1000000 <= 0 \/ 1000000 >= 1000000 ->
        msg = "max_length must be between 1 and 999999")
    /\ (0 < 1000000 < 1000000 -> 0 < 0 -> msg = "start_index must be >= 0")
    /\ (0 < 1000000 < 1000000 -> 0 <= 0 -> msg = "URL is required")
    /\ "max_length must be between 1 and 999999" <> "start_index must be >= 0"
    /\ "max_length must be between 1 and 999999" <> "URL is required"
    /\ "start_index must be >= 0" <> "URL is required".
Proof.
  apply (fetch_validation (Demo.world "") 0 0 Demo.page_url 1000000 0 false
                          initial_state).
  right. left. lia.
Defined.

(* ================================================================== *)
(** * The robots.txt check *)
(* ================================================================== *)

(** C8.  The check requests the site's robots.txt and dispatches on the
    status of the response.  Status 401 or 403: it fails, nothing being
    parsed.  Any other status from 400 to 499: it succeeds, nothing
    being parsed.  Any other status: the body is parsed, and the check
    fails exactly when the rules disallow the user agent for the URL;
    the message of that failure embeds the robots.txt URL, the user
    agent, the target URL and the body of robots.txt as received. *)
Theorem check_may_autonomously_fetch_url_dispatch
  (E : Collaborators) (url user_agent : string) (proxy_url : option string)
  (s : state) (r : response) :
  http_get E (mk_request (get_robots_txt_url E url) user_agent proxy_url
                         true None)
  = Response r ->
  let robot_txt_url := get_robots_txt_url E url in
  let req := mk_request robot_txt_url user_agent proxy_url true None in
  let rules := processed_robot_txt (text r) in
  let run := check_may_autonomously_fetch_url E url user_agent proxy_url s in
  (status_code r = 401 \/ status_code r = 403 ->
   run = (Raise (ValueError
                   ("When fetching robots.txt (" ++ robot_txt_url
                    ++ "), received status " ++ of_int (status_code r)
                    ++ " so assuming that autonomous fetching is not allowed, the user can try manually fetching by using the fetch prompt")),
          logged s [RobotsGet req]))
  /\ (400 <= status_code r < 500 ->
      status_code r <> 401 -> status_code r <> 403 ->
      run = (Return tt, logged s [RobotsGet req]))
  /\ (status_code r < 400 \/ 500 <= status_code r ->
      (can_fetch E rules url user_agent = true ->
       run = (Return tt, logged s [RobotsGet req; RobotsParse rules]))
      /\ (can_fetch E rules url user_agent = false ->
          run = (Raise (ValueError
                   ("The sites robots.txt (" ++ robot_txt_url
                    ++ "), specifies that autonomous fetching of this page is not allowed, "
                    ++ "<useragent>" ++ user_agent ++ "</useragent>" ++ nl
                    ++ "<url>" ++ url ++ "</url>"
                    ++ "<robots>" ++ nl ++ text r ++ nl ++ "</robots>" ++ nl
                    ++ "The assistant must let the user know that it failed to view the page. The assistant may provide further guidance based on the above information."
                    ++ nl
                    ++ "The assistant can tell the user that they can try manually fetching the page by using the fetch prompt within their UI.")),
                 logged s [RobotsGet req; RobotsParse rules]))).
Proof.
  intros Hget robot_txt_url req rules run. subst run.
  unfold check_may_autonomously_fetch_url. fold robot_txt_url. fold req.
  unfold bind at 1. unfold emit at 1. subst req robot_txt_url.
  rewrite Hget. split; [|split].
  - intros Hst.
    assert ((status_code r =? 401) || (status_code r =? 403) = true) as ->.
    { destruct Hst as [-> | ->]; reflexivity. }
    reflexivity.
  - intros Hrange H401 H403.
    destruct (Z.eqb_spec (status_code r) 401); [contradiction|].
    destruct (Z.eqb_spec (status_code r) 403); [contradiction|].
    destruct (Z.leb_spec 400 (status_code r)); [|lia].
    destruct (Z.ltb_spec (status_code r) 500); [|lia].
    reflexivity.
  - intros Hout.
    destruct (Z.eqb_spec (status_code r) 401); [lia|].
    destruct (Z.eqb_spec (status_code r) 403); [lia|].
    assert ((400 <=? status_code r) && (status_code r <? 500) = false) as ->.
    { destruct (Z.leb_spec 400 (status_code r));
        destruct (Z.ltb_spec (status_code r) 500); (reflexivity || lia). }
    cbn [orb]. fold rules. run_monad. unfold logged. cbn.
    rewrite <- app_assoc. cbn [app].
    split; intros ->; reflexivity.
Qed.

Lemma check_may_autonomously_fetch_url_dispatch_witness :
  fst (check_may_autonomously_fetch_url (Demo.world "") Demo.private_url
         "X" None initial_state)
  = Raise (ValueError
      ("The sites robots.txt (https://example.com/robots.txt), specifies that autonomous fetching of this page is not allowed, <useragent>X</useragent>"
       ++ nl ++ "<url>https://example.com/private</url><robots>" ++ nl
       ++ Demo.robots_body ++ nl ++ "</robots>" ++ nl
       ++ "The assistant must let the user know that it failed to view the page. The assistant may provide further guidance based on the above information."
       ++ nl
       ++ "The assistant can tell the user that they can try manually fetching the page by using the fetch prompt within their UI."))
  /\ fst (check_may_autonomously_fetch_url (Demo.world "") Demo.page_url
            "X" None initial_state)
     = Return tt.
Proof.
  pose (r := mk_response 200 Demo.robots_body [] (Some "text/plain")).
  assert (status_code r < 400 \/ 500 <= status_code r) as Hstatus
      by (left; simpl; lia).
  split.
  - pose proof (check_may_autonomously_fetch_url_dispatch
                  (Demo.world "") Demo.private_url "X" None initial_state
                  r eq_refl) as H.
    cbv zeta in H. destruct H as (_ & _ & H).
    destruct (H Hstatus) as [_ Hdeny]. rewrite Hdeny; reflexivity.
  - pose proof (check_may_autonomously_fetch_url_dispatch
                  (Demo.world "") Demo.page_url "X" None initial_state
                  r eq_refl) as H.
    cbv zeta in H. destruct H as (_ & _ & H).
    destruct (H Hstatus) as [Hallow _]. rewrite Hallow; reflexivity.
Defined.

(* ================================================================== *)
(** * What max_length bounds *)
(* ================================================================== *)

(** The header [Contents of <url>:] and its newline take fourteen
    characters and the URL. *)
Lemma len_format_result (prefix url content : string) :
  len (format_result prefix url content)
  = len prefix + 14 + len url + len content.
Proof.
  unfold format_result. rewrite !len_append.
  change (len "Contents of ") with 12. change (len ":") with 1.
  change (len nl) with 1. lia.
Qed.

(** Whenever a call returns a full window, the string it returns is
    longer than [max_length]. *)
Lemma fetch_full_window_exceeds_max_length
  (E : Collaborators) (t_read t_write : Z) (url : string)
  (max_length start_index : Z) (raw : bool) (s s' : state) (out : string) :
  fetch E t_read t_write url max_length start_index raw s = (Return out, s') ->
  exists (s0 : state) (content prefix : string),
    fetch_url E t_read t_write url (user_agent_autonomous s) raw
              (_proxy_url s) false s0
    = (Return (content, prefix), s')
    /\ (len (slice content start_index (start_index + max_length))
        = max_length ->
        len out > max_length).
Proof.
  intros Hrun.
  destruct (fetch_return_inv _ _ _ _ _ _ _ _ _ _ Hrun)
    as (Hmax & Hstart & _ & s0 & content & prefix & Hfetch & ->).
  exists s0, content, prefix. split; [exact Hfetch|]. intros Hfull.
  rewrite len_format_result.
  pose proof (len_nonneg prefix). pose proof (len_nonneg url).
  assert (max_length <= len (paginate content start_index max_length)).
  { assert (start_index < len content) as Hin.
    { rewrite len_slice in Hfull by lia. lia. }
    destruct (Z.lt_ge_cases (start_index + max_length) (len content)).
    - rewrite paginate_continuation by (assumption || lia).
      rewrite len_append, Hfull.
      pose proof (len_nonneg (continuation_notice (start_index + max_length))).
      lia.
    - rewrite paginate_last_window by lia. lia. }
  lia.
Qed.

(** C9.  [max_length] bounds the window taken of the content, not the
    string returned.  The page at [Demo.page_url] has ten characters of
    plain text; fetched with [max_length = 3] the call returns the
    three characters of the window, and before them the advisory prefix
    and the header line, after them the continuation notice: 228
    characters in all. *)
Theorem fetch_result_longer_than_max_length :
  exists (out : string) (s' : state),
    fetch (Demo.world "") 0 0 Demo.page_url 3 0 false initial_state
    = (Return out, s')
    /\ out = raw_content_prefix "text/plain"
             ++ "Contents of " ++ Demo.page_url ++ ":" ++ nl
             ++ slice "abcdefghij" 0 3
             ++ continuation_notice 3
    /\ len (slice "abcdefghij" 0 3) = 3
    /\ len out = 228
    /\ 3 < len out.
Proof.
  do 2 eexists. split; [vm_compute; reflexivity|].
  split; [reflexivity|]. split; [reflexivity|]. split; reflexivity.
Qed.

(* ================================================================== *)
(** * The raw flag and PDF responses *)
(* ================================================================== *)

(** C10.  The raw flag does not bypass the handling of a PDF.  When the
    response is detected as a PDF, [fetch_url] with [force_raw] set
    runs the PDF extraction, cache included, and returns its text with
    an empty prefix, as it does with [force_raw] cleared.  The flag
    weighs only on a response that is not a PDF and is detected as
    HTML. *)
Theorem fetch_url_raw_does_not_bypass_pdf
  (E : Collaborators) (t_read t_write : Z) (url user_agent : string)
  (proxy_url : option string) (verify_ssl : bool) (s : state) (r : response) :
  http_get E (mk_request url user_agent proxy_url verify_ssl (Some 30))
  = Response r ->
  status_code r < 400 ->
  let req := mk_request url user_agent proxy_url verify_ssl (Some 30) in
  let pdf := is_pdf (response_content_type r) url (content r) in
  let html := is_page_html (text r) (response_content_type r) in
  (pdf = true ->
   fetch_url E t_read t_write url user_agent true proxy_url verify_ssl s
   = match extract_content_from_pdf E t_read t_write (content r) url
             (logged s [PageGet req]) with
     | (Return text, s') => (Return (text, ""), s')
     | (Raise e, s') => (Raise e, s')
     end)
  /\ (pdf = true \/ html = false ->
      fetch_url E t_read t_write url user_agent true proxy_url verify_ssl s
      = fetch_url E t_read t_write url user_agent false proxy_url verify_ssl s).
Proof.
  intros Hget Hok req pdf html. subst req pdf html.
  unfold fetch_url. unfold bind at 1 3 5. unfold emit. rewrite Hget.
  destruct (Z.geb_spec (status_code r) 400); [lia|].
  split.
  - intros ->. reflexivity.
  - intros [-> | ->]; [reflexivity|].
    now destruct (is_pdf _ _ _).
Qed.

Lemma fetch_url_raw_does_not_bypass_pdf_witness :
  fetch_url (Demo.world "PDF text") 0 0 Demo.pdf_url "X" true None false
            initial_state
  = (Return ("PDF text", ""),
     mk_state None true None
       [TTLCache.mk_entry Demo.pdf_url "PDF text" 600]
       [PageGet (mk_request Demo.pdf_url "X" None false (Some 30));
        PdfConvert Demo.pdf_bytes])
  /\ fetch_url (Demo.world "PDF text") 0 0 Demo.pdf_url "X" true None false
               initial_state
     = fetch_url (Demo.world "PDF text") 0 0 Demo.pdf_url "X" false None false
                 initial_state.
Proof.
  pose proof (fetch_url_raw_does_not_bypass_pdf
                (Demo.world "PDF text") 0 0 Demo.pdf_url "X" None false
                initial_state
                (mk_response 200 "" Demo.pdf_bytes (Some "application/pdf"))
                eq_refl ltac:(simpl; lia)) as [Hpdf Hsame].
  split.
  - rewrite (Hpdf eq_refl). reflexivity.
  - apply Hsame. left. reflexivity.
Defined.

(* ================================================================== *)
(** * Further facts about strings *)
(* ================================================================== *)

Lemma lower_append (a b : string) : lower (a ++ b) = lower a ++ lower b.
Proof. induction a as [|c a IH]; simpl; [reflexivity | now rewrite IH]. Qed.

Lemma drop_append (a b : string) : drop (String.length a) (a ++ b) = b.
Proof. induction a as [|c a IH]; simpl; [now destruct b | exact IH]. Qed.

Lemma endswith_append (a p : string) : endswith (a ++ p) p = true.
Proof.
  unfold endswith. rewrite length_append.
  replace (String.length a + String.length p - String.length p)%nat
    with (String.length a) by lia.
  rewrite drop_append, String.eqb_refl.
  destruct (Nat.leb_spec (String.length p)
                         (String.length a + String.length p)); [reflexivity | lia].
Qed.

Lemma prefix_append (p rest : string) : String.prefix p (p ++ rest) = true.
Proof.
  induction p as [|c p IH]; simpl; [now destruct rest|].
  destruct (ascii_dec c c); [exact IH | contradiction].
Qed.

Lemma contains_prefix (sub s : string) :
  String.prefix sub s = true -> contains sub s = true.
Proof. intros H. destruct s; cbn [contains]; now rewrite H. Qed.

Lemma contains_append (pre sub post : string) :
  contains sub (pre ++ sub ++ post) = true.
Proof.
  induction pre as [|c pre IH].
  - change ("" ++ sub ++ post) with (sub ++ post).
    apply contains_prefix, prefix_append.
  - cbn [append contains]. rewrite IH. apply orb_true_r.
Qed.

Lemma bytes_startswith_app (p rest : list byte) :
  bytes_startswith (p ++ rest)%list p = true.
Proof.
  induction p as [|x p IH]; simpl; [now destruct rest|].
  rewrite IH, andb_true_r. now apply Byte.byte_dec_lb.
Qed.

Lemma take_take_drop (n m : nat) (s : string) :
  take n s ++ take m (drop n s) = take (n + m) s.
Proof.
  revert s. induction n as [|n IH]; intros s.
  - simpl. now destruct s.
  - destruct s as [|c s]; simpl.
    + now destruct m.
    + now rewrite IH.
Qed.

Lemma drop_drop (n m : nat) (s : string) : drop m (drop n s) = drop (n + m) s.
Proof.
  revert s. induction n as [|n IH]; intros s.
  - simpl. now destruct s.
  - destruct s as [|c s]; simpl; [now destruct m | apply IH].
Qed.

Lemma drop_zero (s : string) : drop 0 s = s.
Proof. now destruct s. Qed.

(** Adjacent slices join into one. *)
Lemma slice_append (s : string) (a b c : Z) :
  0 <= a <= b -> b <= c ->
  slice s a b ++ slice s b c = slice s a c.
Proof.
  intros Hab Hbc. unfold slice, clamp_index.
  destruct (Z.ltb_spec a 0); [lia|].
  destruct (Z.ltb_spec b 0); [lia|].
  destruct (Z.ltb_spec c 0); [lia|].
  pose proof (len_nonneg s) as Hs.
  set (a' := Z.min a (len s)). set (b' := Z.min b (len s)).
  set (c' := Z.min c (len s)).
  replace (Z.to_nat b') with (Z.to_nat a' + Z.to_nat (b' - a'))%nat
    by (subst a' b'; lia).
  rewrite <- drop_drop, take_take_drop. f_equal. subst a' b' c'. lia.
Qed.

(** A slice from the start to the end or past it is the whole string. *)
Lemma slice_whole (s : string) (hi : Z) : len s <= hi -> slice s 0 hi = s.
Proof. apply slice_prefix_short. Qed.

(* ================================================================== *)
(** * The windows of a paginated content *)
(* ================================================================== *)

Lemma append_empty_r (s : string) : s ++ "" = s.
Proof. induction s as [|c s IH]; simpl; [reflexivity | now rewrite IH]. Qed.




(** X1: the window a valid call returns.  It is the characters
    [start_index .. start_index + max_length) of the content, never
    empty and never longer than [max_length].  The notice is appended
    exactly when content is left after the window; a window that ends
    where the content ends, or past it, comes back as it is, and what
    precedes it in the content joined to it is the whole content. *)
Theorem paginate_window (content : string) (start_index max_length : Z) :
  0 <= start_index < len content -> 0 < max_length ->
  0 < len (slice content start_index (start_index + max_length)) <= max_length
  /\ (start_index + max_length < len content ->
      paginate content start_index max_length
      = slice content start_index (start_index + max_length)
        ++ continuation_notice (start_index + max_length))
  /\ (len content <= start_index + max_length ->
      paginate content start_index max_length
      = slice content start_index (start_index + max_length)
      /\ slice content 0 start_index
         ++ slice content start_index (start_index + max_length)
         = content).
Proof.
  intros Hstart Hmax.
  assert (len (slice content start_index (start_index + max_length))
          = Z.min (start_index + max_length) (len content) - start_index)
    as Hlen by (rewrite len_slice by lia; lia).
  split; [lia|]. split.
  - intros Hmore. apply paginate_continuation; lia.
  - intros Hend. split; [apply paginate_last_window; lia|].
    rewrite slice_append by lia. apply slice_whole. lia.
Qed.

Lemma paginate_window_witness :
  (0 < len (slice "abcdef" 2 (2 + 4)) <= 4)
  /\ (2 + 4 < len "abcdef" ->
      paginate "abcdef" 2 4
      = slice "abcdef" 2 (2 + 4) ++ continuation_notice (2 + 4))
  /\ (len "abcdef" <= 2 + 4 ->
      paginate "abcdef" 2 4 = slice "abcdef" 2 (2 + 4)
      /\ slice "abcdef" 0 2 ++ slice "abcdef" 2 (2 + 4) = "abcdef").
Proof.
  apply (paginate_window "abcdef" 2 4); [vm_compute; intuition discriminate | lia].
Defined.



Example windows_of_ten_characters :
  map (nth_window "abcdefghij" 4) (seq 0 3) = ["abcd"; "efgh"; "ij"].
Proof. reflexivity. Qed.

(* ================================================================== *)
(** * The robots.txt body the rules are read from *)
(* ================================================================== *)

Lemma rev_onto_rev_onto (l acc acc' : string) :
  rev_onto (rev_onto l acc) acc' = rev_onto acc (l ++ acc').
Proof.
  revert acc acc'. induction l as [|c l IH]; intros acc acc'; simpl;
    [reflexivity | now rewrite IH].
Qed.

Lemma rev_rev_onto (l : string) : rev (rev_onto l "") = l.
Proof.
  unfold rev. rewrite rev_onto_rev_onto. simpl. apply append_empty_r.
Qed.

Lemma rev_onto_empty (l acc : string) : rev_onto l acc = "" -> l = "".
Proof.
  revert acc. induction l as [|c l IH]; intros acc H; [reflexivity|].
  simpl in H. pose proof (IH _ H) as Hl. subst l. discriminate.
Qed.

Lemma splitlines_from_line (line cur rest : string) :
  one_line line = true ->
  splitlines_from cur (line ++ rest) = splitlines_from (rev_onto line cur) rest.
Proof.
  revert cur. induction line as [|c line IH]; intros cur Hline;
    [reflexivity|].
  cbn [one_line] in Hline. apply andb_true_iff in Hline as [Hc Hline].
  cbn [append splitlines_from rev_onto].
  apply negb_true_iff in Hc. rewrite Hc. now apply IH.
Qed.

Lemma splitlines_from_newline (cur rest : string) :
  splitlines_from cur (nl ++ rest) = rev cur :: splitlines_from "" rest.
Proof. destruct rest; reflexivity. Qed.

(** Lines joined by newlines split back into the same lines, when no
    line holds a line boundary and the last one is not empty. *)
Lemma splitlines_join (lines : list string) :
  forallb one_line lines = true ->
  last lines "x" <> "" ->
  splitlines (join nl lines) = lines.
Proof.
  unfold splitlines, join.
  induction lines as [|l1 [|l2 ls] IH]; intros Hlines Hlast.
  - reflexivity.
  - cbn [forallb] in Hlines. apply andb_true_iff in Hlines as [H1 _].
    cbn [String.concat last] in *.
    rewrite <- (append_empty_r l1) at 1.
    rewrite (splitlines_from_line _ _ _ H1). cbn [splitlines_from].
    destruct (rev_onto l1 "") eqn:Hrev.
    + apply rev_onto_empty in Hrev. contradiction.
    + now rewrite <- Hrev, rev_rev_onto.
  - cbn [forallb] in Hlines. apply andb_true_iff in Hlines as [H1 Hrest].
    change (String.concat nl (l1 :: l2 :: ls))
      with (l1 ++ nl ++ String.concat nl (l2 :: ls)).
    rewrite (splitlines_from_line _ _ _ H1), splitlines_from_newline.
    rewrite rev_rev_onto. f_equal. now apply IH.
Qed.

(** X3: what the rules are read from.  For a robots.txt body made of
    lines joined by newlines (no line holding a line boundary, the last
    one not empty), the text handed to the rule evaluator is the same
    lines in the same order without those that, leading and trailing
    blanks apart, start with [#]; a body without such lines is handed
    over unchanged. *)
Theorem processed_robot_txt_drops_comment_lines (lines : list string) :
  forallb one_line lines = true ->
  last lines "x" <> "" ->
  processed_robot_txt (join nl lines)
  = join nl (filter (fun line => negb (startswith (strip line) "#")) lines)
  /\ (forallb (fun line => negb (startswith (strip line) "#")) lines = true ->
      processed_robot_txt (join nl lines) = join nl lines).
Proof.
  intros Hlines Hlast. unfold processed_robot_txt.
  rewrite (splitlines_join lines Hlines Hlast). split; [reflexivity|].
  intros Hnone. f_equal.
  induction lines as [|l ls IH]; [reflexivity|].
  cbn [forallb filter] in *.
  apply andb_true_iff in Hnone as [Hl Hls].
  apply andb_true_iff in Hlines as [_ Hlines].
  rewrite Hl. f_equal.
  destruct ls as [|l' ls']; [reflexivity|].
  apply IH; assumption.
Qed.

Lemma processed_robot_txt_drops_comment_lines_witness :
  processed_robot_txt
    (join nl ["User-agent: *"; "  # no crawling of the private part";
              "Disallow: /private"])
  = join nl ["User-agent: *"; "Disallow: /private"].
Proof.
  apply (processed_robot_txt_drops_comment_lines
           ["User-agent: *"; "  # no crawling of the private part";
            "Disallow: /private"]); [reflexivity | discriminate].
Defined.

(* ================================================================== *)
(** * Failures of a fetch *)
(* ================================================================== *)

(** A call with valid arguments is the robots.txt check, when it is
    enforced, then the fetch of the page, then the layout of the
    result. *)
Lemma fetch_valid
  (E : Collaborators) (t_read t_write : Z) (url : string)
  (max_length start_index : Z) (raw : bool) (s : state) :
  0 < max_length < 1000000 -> 0 <= start_index -> url <> "" ->
  fetch E t_read t_write url max_length start_index raw s
  = ((if negb (_ignore_robots_txt s)
      then check_may_autonomously_fetch_url E url (user_agent_autonomous s)
             (_proxy_url s)
      else ret tt) ;;;
     cp <- fetch_url E t_read t_write url (user_agent_autonomous s) raw
                     (_proxy_url s) false ;;
     ret (format_result (snd cp) url
            (paginate (fst cp) start_index max_length))) s.
Proof.
  intros Hmax Hstart Hurl. unfold fetch.
  destruct (Z.leb_spec max_length 0); [lia|].
  destruct (Z.geb_spec max_length 1000000); [lia|]. cbn [orb].
  destruct (Z.ltb_spec start_index 0); [lia|].
  destruct (String.eqb_spec url ""); [contradiction|].
  reflexivity.
Qed.

(** The robots.txt check logs nothing but its own calls, the request
    first. *)
Lemma check_may_autonomously_fetch_url_log
  (E : Collaborators) (url user_agent : string) (proxy_url : option string)
  (s : state) :
  exists l,
    log (snd (check_may_autonomously_fetch_url E url user_agent proxy_url s))
    = (log s
       ++ RobotsGet (mk_request (get_robots_txt_url E url) user_agent
                                proxy_url true None)
       :: l)%list
    /\ forallb robots_event l = true.
Proof.
  unfold check_may_autonomously_fetch_url. run_monad.
  destruct (http_get E _) as [e|r]; cbn; [now exists []|].
  destruct ((status_code r =? 401) || (status_code r =? 403));
    cbn; [now exists []|].
  destruct ((400 <=? status_code r) && (status_code r <? 500));
    cbn; [now exists []|].
  destruct (negb (can_fetch E _ _ _)); cbn; rewrite <- app_assoc;
    eexists; split; reflexivity.
Qed.

(** X4: the page cannot be had.  A valid call on a server that ignores
    robots.txt makes one request, for the page; when the transport
    fails, or the status of the response is 400 or more, the call
    raises a [ValueError] that names the URL and the failure or the
    status, and nothing else has happened: no conversion, no change of
    the cache. *)
Theorem fetch_http_failure
  (E : Collaborators) (t_read t_write : Z) (url : string)
  (max_length start_index : Z) (raw : bool) (s : state) :
  0 < max_length < 1000000 -> 0 <= start_index -> url <> "" ->
  _ignore_robots_txt s = true ->
  let req := mk_request url (user_agent_autonomous s) (_proxy_url s)
                        false (Some 30) in
  (forall e : string,
      http_get E req = HTTPError e ->
      fetch E t_read t_write url max_length start_index raw s
      = (Raise (ValueError ("Failed to fetch " ++ url ++ ": " ++ e)),
         logged s [PageGet req]))
  /\ (forall r : response,
         http_get E req = Response r -> 400 <= status_code r ->
         fetch E t_read t_write url max_length start_index raw s
         = (Raise (ValueError ("Failed to fetch " ++ url ++ " - status code "
                               ++ of_int (status_code r))),
            logged s [PageGet req])).
Proof.
  intros Hmax Hstart Hurl Hflag req.
  rewrite (fetch_valid E _ _ _ _ _ _ _ Hmax Hstart Hurl), Hflag.
  cbn [negb]. unfold bind at 1. unfold ret at 1. unfold bind at 1.
  unfold fetch_url. fold req. unfold bind at 1. unfold emit at 1.
  split.
  - intros e He. rewrite He. reflexivity.
  - intros r Hr Hstatus. rewrite Hr.
    destruct (Z.geb_spec (status_code r) 400); [reflexivity | lia].
Qed.

Lemma fetch_http_failure_witness :
  fetch (Probe.answering
           (Response (mk_response 404 "Not Found" [] (Some "text/html")))
           None None)
        0 0 "https://example.com/gone" 5000 0 false initial_state
  = (Raise (ValueError
              "Failed to fetch https://example.com/gone - status code 404"),
     logged initial_state
       [PageGet (mk_request "https://example.com/gone"
                            DEFAULT_USER_AGENT_AUTONOMOUS None false
                            (Some 30))]).
Proof.
  refine (proj2 (fetch_http_failure
                   (Probe.answering
                      (Response (mk_response 404 "Not Found" []
                                             (Some "text/html")))
                      None None)
                   0 0 "https://example.com/gone" 5000 0 false initial_state
                   _ _ _ _)
                (mk_response 404 "Not Found" [] (Some "text/html")) _ _).
  - lia.
  - lia.
  - discriminate.
  - reflexivity.
  - reflexivity.
  - simpl. lia.
Defined.

(** X5: a refusal by the robots.txt check ends the call.  On a server
    that enforces robots.txt, whatever the check raises (the site's
    robots.txt cannot be reached, it answers 401 or 403, or its rules
    disallow the page) is what a valid call raises, in the state the
    check left: the page itself is never requested. *)
Theorem fetch_robots_refusal_skips_page
  (E : Collaborators) (t_read t_write : Z) (url : string)
  (max_length start_index : Z) (raw : bool) (s s1 : state) (e : exn) :
  0 < max_length < 1000000 -> 0 <= start_index -> url <> "" ->
  _ignore_robots_txt s = false ->
  check_may_autonomously_fetch_url E url (user_agent_autonomous s)
                                   (_proxy_url s) s
  = (Raise e, s1) ->
  fetch E t_read t_write url max_length start_index raw s = (Raise e, s1)
  /\ filter page_event (log s1) = filter page_event (log s).
Proof.
  intros Hmax Hstart Hurl Hflag Hcheck.
  rewrite (fetch_valid E _ _ _ _ _ _ _ Hmax Hstart Hurl), Hflag.
  cbn [negb]. unfold bind at 1. rewrite Hcheck. split; [reflexivity|].
  destruct (check_may_autonomously_fetch_url_log
              E url (user_agent_autonomous s) (_proxy_url s) s)
    as (l & Hl & Hrobots).
  rewrite Hcheck in Hl. cbn [snd] in Hl. rewrite Hl, filter_app.
  cbn [filter page_event].
  assert (filter page_event l = []) as ->; [|apply app_nil_r].
  clear Hl. induction l as [|ev l IH]; [reflexivity|].
  cbn [forallb] in Hrobots. apply andb_true_iff in Hrobots as [Hev Hrest].
  destruct ev; try discriminate; cbn [filter page_event]; now apply IH.
Qed.

Lemma fetch_robots_refusal_skips_page_witness :
  exists (e : exn) (s1 : state),
    fetch (Demo.world "") 0 0 Demo.private_url 5000 0 false
          (mk_state None false None [] [])
    = (Raise e, s1)
    /\ filter page_event (log s1) = [].
Proof.
  do 2 eexists.
  apply (fetch_robots_refusal_skips_page
           (Demo.world "") 0 0 Demo.private_url 5000 0 false
           (mk_state None false None [] [])).
  - lia.
  - lia.
  - discriminate.
  - reflexivity.
  - vm_compute. reflexivity.
Defined.

(* ================================================================== *)
(** * What is made of a response *)
(* ================================================================== *)

(** X6: detecting a PDF.  A response is a PDF as soon as its content type
    holds [application/pdf] in any letter case, or the URL ends in
    [.pdf] in any letter case, or the body starts with the five bytes
    [%PDF-]; each of the three is enough whatever the other two are. *)
Theorem is_pdf_detection
  (content_type url : string) (raw_bytes : list byte) :
  (forall before ct after : string,
      lower ct = "application/pdf" ->
      is_pdf (before ++ ct ++ after) url raw_bytes = true)
  /\ (forall stem ext : string,
         lower ext = ".pdf" ->
         is_pdf content_type (stem ++ ext) raw_bytes = true)
  /\ (forall rest : list byte,
         is_pdf content_type url (pdf_magic ++ rest)%list = true).
Proof.
  unfold is_pdf. split; [|split].
  - intros before ct after Hct.
    rewrite !lower_append, Hct, contains_append. reflexivity.
  - intros stem ext Hext.
    rewrite lower_append, Hext, endswith_append.
    apply orb_true_iff. left. apply orb_true_r.
  - intros rest. rewrite bytes_startswith_app. apply orb_true_r.
Qed.

Lemma is_pdf_detection_witness :
  is_pdf ("" ++ "Application/PDF" ++ "; charset=binary")
         "https://example.com/download" [] = true
  /\ is_pdf "text/html" ("https://example.com/report" ++ ".PDF") [] = true
  /\ is_pdf "text/html" "https://example.com/download"
            (pdf_magic ++ [x31])%list = true.
Proof.
  split; [|split].
  - apply (proj1 (is_pdf_detection "" "https://example.com/download" [])).
    reflexivity.
  - apply (proj1 (proj2 (is_pdf_detection "text/html" "" []))).
    reflexivity.
  - apply (proj2 (proj2 (is_pdf_detection
                           "text/html" "https://example.com/download" []))).
Defined.

(** X7: a page that is simplified.  A response below status 400 that is
    not a PDF and is detected as HTML comes back, when raw content is
    not asked for, as the Markdown made of its readable content, with an
    empty prefix, and nothing but the request has happened.  A response
    without a content type is detected as HTML.  When the simplifier
    finds no content the text is the marker
    [<error>Page failed to be simplified from HTML</error>]. *)
Theorem fetch_url_simplifies_html
  (E : Collaborators) (t_read t_write : Z) (url user_agent : string)
  (proxy_url : option string) (verify_ssl : bool) (s : state) (r : response) :
  http_get E (mk_request url user_agent proxy_url verify_ssl (Some 30))
  = Response r ->
  status_code r < 400 ->
  is_pdf (response_content_type r) url (content r) = false ->
  is_page_html (text r) (response_content_type r) = true
  \/ content_type_header r = None ->
  let req := mk_request url user_agent proxy_url verify_ssl (Some 30) in
  exists md : string,
    fetch_url E t_read t_write url user_agent false proxy_url verify_ssl s
    = (Return (md, ""), logged s [PageGet req])
    /\ (forall c : string,
           simple_json_content E (text r) = Some c -> c <> "" ->
           md = markdownify E c)
    /\ (simple_json_content E (text r) = None
        \/ simple_json_content E (text r) = Some "" ->
        md = "<error>Page failed to be simplified from HTML</error>").
Proof.
  intros Hget Hok Hpdf Hhtml req.
  assert (is_page_html (text r) (response_content_type r) = true) as Hpage.
  { destruct Hhtml as [H|H]; [exact H|].
    unfold is_page_html, response_content_type. rewrite H.
    apply orb_true_r. }
  exists (extract_content_from_html E (text r)). split; [|split].
  - subst req. unfold fetch_url. unfold bind at 1. unfold emit at 1.
    rewrite Hget.
    destruct (Z.geb_spec (status_code r) 400); [lia|].
    rewrite Hpdf, Hpage. reflexivity.
  - intros c Hc Hne. unfold extract_content_from_html. rewrite Hc.
    destruct (String.eqb_spec c ""); [contradiction | reflexivity].
  - unfold extract_content_from_html. intros [-> | ->]; reflexivity.
Qed.

Lemma fetch_url_simplifies_html_witness :
  exists md : string,
    fetch_url (Probe.answering
                 (Response (mk_response 200 "<p>Hello</p>" [] None))
                 (Some "<p>Hello</p>") None)
              0 0 "https://example.com/hello" "X" false None false
              initial_state
    = (Return (md, ""),
       logged initial_state
         [PageGet (mk_request "https://example.com/hello" "X" None false
                              (Some 30))])
    /\ (forall c : string,
           Some "<p>Hello</p>" = Some c -> c <> "" -> md = "md:" ++ c)
    /\ (Some "<p>Hello</p>" = None \/ Some "<p>Hello</p>" = Some "" ->
        md = "<error>Page failed to be simplified from HTML</error>").
Proof.
  apply (fetch_url_simplifies_html
           (Probe.answering
              (Response (mk_response 200 "<p>Hello</p>" [] None))
              (Some "<p>Hello</p>") None)
           0 0 "https://example.com/hello" "X" None false initial_state
           (mk_response 200 "<p>Hello</p>" [] None)).
  - reflexivity.
  - simpl. lia.
  - reflexivity.
  - right. reflexivity.
Defined.

(** X8: a page that is handed over raw.  A response below status 400
    that is not a PDF comes back character for character, behind a
    prefix that names its content type, when raw content is asked for
    or when it is not detected as HTML; nothing but the request has
    happened, and the converters were not called. *)
Theorem fetch_url_hands_over_raw_text
  (E : Collaborators) (t_read t_write : Z) (url user_agent : string)
  (force_raw : bool) (proxy_url : option string) (verify_ssl : bool)
  (s : state) (r : response) :
  http_get E (mk_request url user_agent proxy_url verify_ssl (Some 30))
  = Response r ->
  status_code r < 400 ->
  is_pdf (response_content_type r) url (content r) = false ->
  force_raw = true
  \/ is_page_html (text r) (response_content_type r) = false ->
  fetch_url E t_read t_write url user_agent force_raw proxy_url verify_ssl s
  = (Return (text r,
             "Content type " ++ response_content_type r
             ++ " cannot be simplified to markdown, but here is the raw content:"
             ++ nl),
     logged s [PageGet (mk_request url user_agent proxy_url verify_ssl
                                   (Some 30))]).
Proof.
  intros Hget Hok Hpdf Hraw.
  unfold fetch_url. unfold bind at 1. unfold emit at 1. rewrite Hget.
  destruct (Z.geb_spec (status_code r) 400); [lia|].
  rewrite Hpdf.
  assert (is_page_html (text r) (response_content_type r) && negb force_raw
          = false) as ->; [|reflexivity].
  destruct Hraw as [-> | ->]; [apply andb_false_r | reflexivity].
Qed.

Lemma fetch_url_hands_over_raw_text_witness :
  fetch_url (Probe.answering
               (Response (mk_response 200 "<html><p>Hello</p></html>" []
                                      (Some "text/html")))
               (Some "<p>Hello</p>") None)
            0 0 "https://example.com/hello" "X" true None false initial_state
  = (Return ("<html><p>Hello</p></html>",
             "Content type text/html cannot be simplified to markdown, but here is the raw content:"
             ++ nl),
     logged initial_state
       [PageGet (mk_request "https://example.com/hello" "X" None false
                            (Some 30))]).
Proof.
  apply (fetch_url_hands_over_raw_text
           (Probe.answering
              (Response (mk_response 200 "<html><p>Hello</p></html>" []
                                     (Some "text/html")))
              (Some "<p>Hello</p>") None)
           0 0 "https://example.com/hello" "X" true None false initial_state
           (mk_response 200 "<html><p>Hello</p></html>" [] (Some "text/html"))).
  - reflexivity.
  - simpl. lia.
  - reflexivity.
  - left. reflexivity.
Defined.

(** X9: the cache is keyed by the URL alone.  When the URL of a PDF
    response has a live entry in the cache, the cached text is what
    comes back, with an empty prefix; the body of the response is not
    converted, whatever it is, and the cache stays as it is. *)
Theorem fetch_url_cached_pdf_ignores_body
  (E : Collaborators) (t_read t_write : Z) (url user_agent cached : string)
  (force_raw : bool) (proxy_url : option string) (verify_ssl : bool)
  (s : state) (r : response) :
  http_get E (mk_request url user_agent proxy_url verify_ssl (Some 30))
  = Response r ->
  status_code r < 400 ->
  is_pdf (response_content_type r) url (content r) = true ->
  TTLCache.getitem (_pdf_cache s) url t_read = Some cached ->
  fetch_url E t_read t_write url user_agent force_raw proxy_url verify_ssl s
  = (Return (cached, ""),
     logged s [PageGet (mk_request url user_agent proxy_url verify_ssl
                                   (Some 30))]).
Proof.
  intros Hget Hok Hpdf Hhit.
  unfold fetch_url. unfold bind at 1. unfold emit at 1. rewrite Hget.
  destruct (Z.geb_spec (status_code r) 400); [lia|].
  rewrite Hpdf. unfold bind.
  rewrite (extract_content_from_pdf_hit E _ _ _ _ cached); [reflexivity|].
  exact Hhit.
Qed.

Lemma fetch_url_cached_pdf_ignores_body_witness :
  fetch_url (Demo.world "the text of the new document") 1 1 Demo.pdf_url "X"
            false None false
            (mk_state None true None
               [TTLCache.mk_entry Demo.pdf_url "the text of the old document"
                                  600] [])
  = (Return ("the text of the old document", ""),
     logged (mk_state None true None
               [TTLCache.mk_entry Demo.pdf_url "the text of the old document"
                                  600] [])
       [PageGet (mk_request Demo.pdf_url "X" None false (Some 30))]).
Proof.
  apply (fetch_url_cached_pdf_ignores_body
           (Demo.world "the text of the new document") 1 1 Demo.pdf_url "X"
           "the text of the old document" false None false
           (mk_state None true None
              [TTLCache.mk_entry Demo.pdf_url "the text of the old document"
                                 600] [])
           (mk_response 200 "" Demo.pdf_bytes (Some "application/pdf"))).
  - reflexivity.
  - simpl. lia.
  - reflexivity.
  - reflexivity.
Defined.

(** X10: a failed conversion is not remembered.  When the converter
    raises on a document whose URL is not in the cache, the call raises
    and the cache stays as it was; the same call made again runs the
    converter again. *)
Theorem extract_content_from_pdf_failure_not_cached
  (E : Collaborators) (t_read t_write t_write' : Z) (data : list byte)
  (url : string) (s : state) :
  TTLCache.contains (_pdf_cache s) url t_read = false ->
  markitdown_convert E data = None ->
  extract_content_from_pdf E t_read t_write data url s
  = (Raise ConversionFailed, logged s [PdfConvert data])
  /\ _pdf_cache (logged s [PdfConvert data]) = _pdf_cache s
  /\ extract_content_from_pdf E t_read t_write' data url
       (logged s [PdfConvert data])
     = (Raise ConversionFailed, logged s [PdfConvert data; PdfConvert data]).
Proof.
  intros Hmiss Hconv. split; [|split].
  - now apply extract_content_from_pdf_failure.
  - reflexivity.
  - rewrite extract_content_from_pdf_failure by assumption.
    unfold logged. cbn. now rewrite <- app_assoc.
Qed.

Lemma extract_content_from_pdf_failure_not_cached_witness :
  extract_content_from_pdf (Probe.answering (HTTPError "") None None) 0 0
                           Demo.pdf_bytes Demo.pdf_url initial_state
  = (Raise ConversionFailed,
     logged initial_state [PdfConvert Demo.pdf_bytes])
  /\ _pdf_cache (logged initial_state [PdfConvert Demo.pdf_bytes])
     = _pdf_cache initial_state
  /\ extract_content_from_pdf (Probe.answering (HTTPError "") None None) 0 7
       Demo.pdf_bytes Demo.pdf_url
       (logged initial_state [PdfConvert Demo.pdf_bytes])
     = (Raise ConversionFailed,
        logged initial_state
          [PdfConvert Demo.pdf_bytes; PdfConvert Demo.pdf_bytes]).
Proof.
  apply (extract_content_from_pdf_failure_not_cached
           (Probe.answering (HTTPError "") None None) 0 0 7
           Demo.pdf_bytes Demo.pdf_url initial_state); reflexivity.
Defined.

(* ================================================================== *)
(** * What a fetch leaves alone *)
(* ================================================================== *)

Lemma extends_refl (P : event -> Prop) (s : state) : extends P s s.
Proof.
  repeat split. exists []. split; [now rewrite app_nil_r | constructor].
Qed.

Lemma extends_trans (P : event -> Prop) (s1 s2 s3 : state) :
  extends P s1 s2 -> extends P s2 s3 -> extends P s1 s3.
Proof.
  intros (Ha & Hb & Hc & l1 & Hl1 & HP1) (Ha' & Hb' & Hc' & l2 & Hl2 & HP2).
  repeat split; try congruence.
  exists (l1 ++ l2)%list. split; [|now apply Forall_app].
  now rewrite Hl2, Hl1, app_assoc.
Qed.

Lemma extends_logged (P : event -> Prop) (s : state) (l : list event) :
  Forall P l -> extends P s (logged s l).
Proof. intros HP. repeat split. now exists l. Qed.

Lemma extends_set_cache (P : event -> Prop) (s : state) (c : TTLCache.t) :
  extends P s
    (mk_state (_custom_user_agent s) (_ignore_robots_txt s) (_proxy_url s)
              c (log s)).
Proof.
  repeat split. exists []. split; [now rewrite app_nil_r | constructor].
Qed.

Section FetchFrame.

Variable E : Collaborators.
Variable url : string.
Variable ua : string.
Variable proxy : option string.

Let allowed : event -> Prop := fetch_request_ok E url ua proxy.

Lemma extract_content_from_pdf_extends
  (t_read t_write : Z) (data : list byte) (s : state) :
  extends allowed s
    (snd (extract_content_from_pdf E t_read t_write data url s)).
Proof.
  destruct (TTLCache.contains (_pdf_cache s) url t_read) eqn:Hc.
  - destruct (TTLCacheFacts.contains_getitem _ _ _ Hc) as [v Hv].
    rewrite (extract_content_from_pdf_hit E _ t_write data _ _ _ Hv).
    apply extends_refl.
  - destruct (markitdown_convert E data) as [text|] eqn:Hconv.
    + rewrite (extract_content_from_pdf_miss E _ _ _ _ _ _ Hc Hconv).
      cbn [snd].
      eapply extends_trans;
        [apply (extends_logged allowed s [PdfConvert data]);
         repeat constructor|].
      apply (extends_set_cache allowed (logged s [PdfConvert data])).
    + rewrite (extract_content_from_pdf_failure E _ _ _ _ _ Hc Hconv).
      apply (extends_logged allowed s [PdfConvert data]).
      repeat constructor.
Qed.

Lemma fetch_url_extends
  (t_read t_write : Z) (force_raw : bool) (s : state) :
  extends allowed s
    (snd (fetch_url E t_read t_write url ua force_raw proxy false s)).
Proof.
  assert (extends allowed s
            (logged s [PageGet (mk_request url ua proxy false (Some 30))]))
    as Hreq.
  { apply extends_logged. repeat constructor. }
  unfold fetch_url. unfold bind at 1. unfold emit at 1. cbn [fst snd].
  fold (logged s [PageGet (mk_request url ua proxy false (Some 30))]).
  destruct (http_get E _) as [e|r]; [exact Hreq|].
  destruct (status_code r >=? 400); [exact Hreq|].
  destruct (is_pdf _ _ _).
  - unfold bind.
    match goal with
    | |- context [extract_content_from_pdf E ?a ?b ?d ?u ?st] =>
        pose proof (extract_content_from_pdf_extends a b d st) as Hstep;
        destruct (extract_content_from_pdf E a b d u st) as [[text|e] st']
    end; exact (extends_trans _ _ _ _ Hreq Hstep).
  - destruct (is_page_html _ _ && negb force_raw); exact Hreq.
Qed.

Lemma check_may_autonomously_fetch_url_extends (s : state) :
  extends allowed s
    (snd (check_may_autonomously_fetch_url E url ua proxy s)).
Proof.
  unfold check_may_autonomously_fetch_url. run_monad.
  set (req := mk_request (get_robots_txt_url E url) ua proxy true None).
  fold (logged s [RobotsGet req]).
  assert (extends allowed s (logged s [RobotsGet req])) as Hreq.
  { apply extends_logged. repeat constructor. }
  destruct (http_get E req) as [e|r]; [exact Hreq|].
  destruct ((status_code r =? 401) || (status_code r =? 403)); [exact Hreq|].
  destruct ((400 <=? status_code r) && (status_code r <? 500)); [exact Hreq|].
  assert (forall rules,
             extends allowed s
               (logged (logged s [RobotsGet req]) [RobotsParse rules]))
    as Hparse.
  { intros rules. eapply extends_trans; [exact Hreq|].
    apply extends_logged. repeat constructor. }
  cbn [fst snd]. destruct (negb (can_fetch E _ _ _)); apply Hparse.
Qed.

End FetchFrame.

(** X11: what a call leaves alone and what it asks of the network.  Any
    call of [fetch], valid or not, failing or not, leaves the three
    configuration globals as they were and only adds to the log of
    outside calls.  Every request it makes carries the configured user
    agent (the default one when none, or an empty one, is configured)
    and the configured proxy: the site's robots.txt is requested with
    certificate verification and no timeout, the page, at the URL as
    given, without certificate verification and within thirty
    seconds. *)
Theorem fetch_keeps_configuration
  (E : Collaborators) (t_read t_write : Z) (url : string)
  (max_length start_index : Z) (raw : bool) (s : state) :
  extends (fetch_request_ok E url (user_agent_autonomous s) (_proxy_url s))
          s
          (snd (fetch E t_read t_write url max_length start_index raw s))
  /\ (_custom_user_agent s = None \/ _custom_user_agent s = Some "" ->
      user_agent_autonomous s = DEFAULT_USER_AGENT_AUTONOMOUS)
  /\ (forall c : string,
         _custom_user_agent s = Some c -> c <> "" ->
         user_agent_autonomous s = c).
Proof.
  split; [|].
  - unfold fetch.
    destruct ((max_length <=? 0) || (max_length >=? 1000000));
      [apply extends_refl|].
    destruct (start_index <? 0); [apply extends_refl|].
    destruct (String.eqb url ""); [apply extends_refl|].
    unfold bind at 1. unfold get_state at 1. unfold bind at 1.
    assert (extends
              (fetch_request_ok E url (user_agent_autonomous s) (_proxy_url s))
              s
              (snd ((if negb (_ignore_robots_txt s)
                     then check_may_autonomously_fetch_url E url
                            (user_agent_autonomous s) (_proxy_url s)
                     else ret tt) s))) as Hcheck.
    { destruct (negb (_ignore_robots_txt s));
        [apply check_may_autonomously_fetch_url_extends | apply extends_refl]. }
    destruct ((if negb (_ignore_robots_txt s)
               then check_may_autonomously_fetch_url E url
                      (user_agent_autonomous s) (_proxy_url s)
               else ret tt) s) as [[[]|e] s1]; cbn [snd] in Hcheck;
      [|exact Hcheck].
    unfold bind.
    pose proof (fetch_url_extends E url (user_agent_autonomous s)
                  (_proxy_url s) t_read t_write raw s1) as Hpage.
    destruct (fetch_url E t_read t_write url (user_agent_autonomous s) raw
                (_proxy_url s) false s1) as [[cp|e] s2];
      cbn [snd] in *; exact (extends_trans _ _ _ _ Hcheck Hpage).
  - unfold user_agent_autonomous. split.
    + intros [-> | ->]; reflexivity.
    + intros c -> Hne.
      destruct (String.eqb_spec c ""); [contradiction | reflexivity].
Qed.

(* ================================================================== *)
(** * Which calls reach the network *)
(* ================================================================== *)




(* ================================================================== *)
(** * The command line *)
(* ================================================================== *)

(** Once set, the flag stays set whatever follows on the command line. *)
Lemma parse_args_from_keeps_flag (n : nat) :
  forall (argv : list string) (ns ns' : Namespace),
    (List.length argv <= n)%nat ->
    args_ignore_robots_txt ns = true ->
    parse_args_from ns argv = Some ns' ->
    args_ignore_robots_txt ns' = true.
Proof.
  induction n as [|n IH]; intros argv ns ns' Hlen Hset Hparse.
  - destruct argv; [|simpl in Hlen; lia]. inversion Hparse. now subst.
  - destruct argv as [|opt rest]; [inversion Hparse; now subst|].
    cbn [parse_args_from] in Hparse. cbn [List.length] in Hlen.
    destruct (String.eqb opt "--ignore-robots-txt").
    { eapply IH; [| |exact Hparse]; [lia | reflexivity]. }
    destruct rest as [|v rest']; [discriminate|]. cbn [List.length] in Hlen.
    destruct (String.eqb opt "--user-agent").
    { eapply IH; [| |exact Hparse]; [lia | exact Hset]. }
    destruct (String.eqb opt "--proxy-url").
    { eapply IH; [| |exact Hparse]; [lia | exact Hset]. }
    destruct (String.eqb opt "--port").
    { destruct (parse_port v); [|discriminate].
      eapply IH; [| |exact Hparse]; [lia | exact Hset]. }
    destruct (String.eqb opt "--transport"); [|discriminate].
    destruct (String.eqb v "stdio" || String.eqb v "http"); [|discriminate].
    eapply IH; [| |exact Hparse]; [lia | exact Hset].
Qed.

(** X13: the flag on the command line.  A server started with
    [--ignore-robots-txt] as the first argument, whatever options
    follow, runs with [_ignore_robots_txt] set and an empty log, and no
    call of [fetch] made in that state requests or parses a
    robots.txt. *)
Theorem main_with_flag_ignores_robots_txt
  (E : Collaborators) (argv : list string) (s : state)
  (t_read t_write : Z) (url : string) (max_length start_index : Z)
  (raw : bool) :
  main ("--ignore-robots-txt" :: argv) = Some s ->
  _ignore_robots_txt s = true
  /\ log s = []
  /\ robots_events
       (log (snd (fetch E t_read t_write url max_length start_index raw s)))
     = [].
Proof.
  intros Hmain. unfold main, parse_args in Hmain.
  destruct (parse_args_from namespace_defaults ("--ignore-robots-txt" :: argv))
    as [args|] eqn:Hparse; [|discriminate].
  inversion Hmain; subst s; clear Hmain.
  cbn [parse_args_from] in Hparse. rewrite String.eqb_refl in Hparse.
  assert (args_ignore_robots_txt args = true) as Hset.
  { eapply (parse_args_from_keeps_flag _ argv); [apply le_n| |exact Hparse].
    reflexivity. }
  split; [exact Hset|]. split; [reflexivity|].
  rewrite fetch_ignoring_robots_txt; [reflexivity | exact Hset].
Qed.

Lemma main_with_flag_ignores_robots_txt_witness :
  exists s : state,
    main ["--ignore-robots-txt"; "--user-agent"; "Probe/1.0"; "--port"; "8080"]
    = Some s
    /\ _custom_user_agent s = Some "Probe/1.0"
    /\ _ignore_robots_txt s = true
    /\ robots_events
         (log (snd (fetch (Demo.world "") 0 0 Demo.private_url 5000 0 false
                          s)))
       = [].
Proof.
  eexists. split; [reflexivity|]. split; [reflexivity|].
  pose proof (main_with_flag_ignores_robots_txt
                (Demo.world "")
                ["--user-agent"; "Probe/1.0"; "--port"; "8080"] _
                0 0 Demo.private_url 5000 0 false eq_refl) as (Hflag & _ & Hlog).
  split; [exact Hflag | exact Hlog].
Defined.

(* ================================================================== *)
(** * A robots.txt check that passes *)
(* ================================================================== *)

(** What an extraction returns and the cache it leaves depend on the
    state through the cache alone. *)
Lemma extract_content_from_pdf_depends_on_cache
  (E : Collaborators) (t_read t_write : Z) (data : list byte) (url : string)
  (a b : state) :
  _pdf_cache a = _pdf_cache b ->
  fst (extract_content_from_pdf E t_read t_write data url a)
  = fst (extract_content_from_pdf E t_read t_write data url b)
  /\ _pdf_cache (snd (extract_content_from_pdf E t_read t_write data url a))
     = _pdf_cache (snd (extract_content_from_pdf E t_read t_write data url b)).
Proof.
  intros Hcache. unfold extract_content_from_pdf. run_monad. rewrite Hcache.
  destruct (TTLCache.contains (_pdf_cache b) url t_read).
  - destruct (TTLCache.getitem (_pdf_cache b) url t_read); now split.
  - cbn. destruct (markitdown_convert E data); cbn; rewrite ?Hcache; now split.
Qed.

Lemma fetch_url_depends_on_cache
  (E : Collaborators) (t_read t_write : Z) (url user_agent : string)
  (force_raw : bool) (proxy_url : option string) (verify_ssl : bool)
  (a b : state) :
  _pdf_cache a = _pdf_cache b ->
  fst (fetch_url E t_read t_write url user_agent force_raw proxy_url
                 verify_ssl a)
  = fst (fetch_url E t_read t_write url user_agent force_raw proxy_url
                   verify_ssl b)
  /\ _pdf_cache (snd (fetch_url E t_read t_write url user_agent force_raw
                                proxy_url verify_ssl a))
     = _pdf_cache (snd (fetch_url E t_read t_write url user_agent force_raw
                                  proxy_url verify_ssl b)).
Proof.
  intros Hcache. unfold fetch_url. unfold bind at 1 3 5 7. unfold emit.
  cbn [fst snd].
  destruct (http_get E _) as [e|r]; [now split|].
  destruct (status_code r >=? 400); [now split|].
  destruct (is_pdf _ _ _).
  - unfold bind.
    match goal with
    | |- context [extract_content_from_pdf E ?x ?y ?d ?u ?sa] =>
        match goal with
        | |- context [extract_content_from_pdf E x y d u ?sb] =>
            tryif constr_eq sa sb then fail else
              destruct (extract_content_from_pdf_depends_on_cache
                          E x y d u sa sb Hcache) as [Hfst Hsnd];
              destruct (extract_content_from_pdf E x y d u sa) as [[ta|ea] sa'];
              destruct (extract_content_from_pdf E x y d u sb) as [[tb|eb] sb']
        end
    end; cbn [fst snd] in *; try discriminate; unfold ret; cbn [fst snd];
      split; congruence.
  - destruct (is_page_html _ _ && negb force_raw); now split.
Qed.

(** X14: a check that passes changes nothing but the log.  On a server
    that enforces robots.txt, a valid call whose check passes (the
    rules allow the page, or the site has no robots.txt to speak of)
    returns or raises exactly what the same call does on a server that
    ignores robots.txt, and leaves the same cache. *)
Theorem fetch_after_passed_check
  (E : Collaborators) (t_read t_write : Z) (url : string)
  (max_length start_index : Z) (raw : bool) (s s1 : state) :
  0 < max_length < 1000000 -> 0 <= start_index -> url <> "" ->
  _ignore_robots_txt s = false ->
  check_may_autonomously_fetch_url E url (user_agent_autonomous s)
                                   (_proxy_url s) s
  = (Return tt, s1) ->
  let ignoring :=
    mk_state (_custom_user_agent s) true (_proxy_url s) (_pdf_cache s)
             (log s) in
  fst (fetch E t_read t_write url max_length start_index raw s)
  = fst (fetch E t_read t_write url max_length start_index raw ignoring)
  /\ _pdf_cache
       (snd (fetch E t_read t_write url max_length start_index raw s))
     = _pdf_cache
         (snd (fetch E t_read t_write url max_length start_index raw
                     ignoring)).
Proof.
  intros Hmax Hstart Hurl Hflag Hcheck ignoring.
  pose proof (check_may_autonomously_fetch_url_frame
                E url (user_agent_autonomous s) (_proxy_url s) s) as Hframe.
  cbv zeta in Hframe. rewrite Hcheck in Hframe. cbn [snd] in Hframe.
  destruct Hframe as (_ & _ & _ & Hcache).
  destruct (fetch_url_depends_on_cache
              E t_read t_write url (user_agent_autonomous s) raw
              (_proxy_url s) false s1 ignoring Hcache) as [Hfst Hsnd].
  rewrite !(fetch_valid E _ _ _ _ _ _ _ Hmax Hstart Hurl), Hflag.
  change (_ignore_robots_txt ignoring) with true.
  change (_proxy_url ignoring) with (_proxy_url s).
  change (user_agent_autonomous ignoring) with (user_agent_autonomous s).
  cbn [negb]. unfold bind, ret. rewrite Hcheck.
  destruct (fetch_url E t_read t_write url (user_agent_autonomous s) raw
              (_proxy_url s) false s1) as [[cp1|e1] s1'];
    destruct (fetch_url E t_read t_write url (user_agent_autonomous s) raw
                (_proxy_url s) false ignoring) as [[cp2|e2] s2'];
    cbn [fst snd] in *; try discriminate; split; congruence.
Qed.

Lemma fetch_after_passed_check_witness :
  fst (fetch (Demo.world "") 0 0 Demo.page_url 4 4 false
             (mk_state None false None [] []))
  = fst (fetch (Demo.world "") 0 0 Demo.page_url 4 4 false initial_state)
  /\ _pdf_cache
       (snd (fetch (Demo.world "") 0 0 Demo.page_url 4 4 false
                   (mk_state None false None [] [])))
     = _pdf_cache
         (snd (fetch (Demo.world "") 0 0 Demo.page_url 4 4 false
                     initial_state)).
Proof.
  refine (fetch_after_passed_check
            (Demo.world "") 0 0 Demo.page_url 4 4 false
            (mk_state None false None [] []) _ _ _ _ _ _).
  - lia.
  - lia.
  - discriminate.
  - reflexivity.
  - vm_compute. reflexivity.
Defined.
